(** * GeoSpy location pipeline

    A shallow embedding of the browser script [src/index.js]
    ([identifyLocation], [Vision], [runLocalObjectAnalysis],
    [renderResults]) and of its earlier variant [src/unnamed/part_000],
    with the properties of the fallback pipeline stated over it.

    Layout: the fragment of JavaScript the script relies on ([JS]), the
    page, the external services and the effect monad ([Browser]), the two
    variants of the script ([IndexJs], [Part000]), then the theorems. *)

From Stdlib Require Import ZArith List String Ascii Bool Lia.
From Stdlib Require Import Floats DecimalString.
From Stdlib Require Uint63.
Import ListNotations.
Set Warnings "-inexact-float,-register-all".
Open Scope string_scope.

(* ------------------------------------------------------------------ *)
(** ** The JavaScript fragment *)

Module JS.

(** Values as [JSON.parse] and [response.json()] produce them, plus
    [undefined] and the built-in members a value inherits from its
    prototype ([VNative]).  Numbers are IEEE binary64.  An object is the
    list of its own properties in insertion order, keys distinct. *)
Inductive value : Type :=
| VUndef
| VNull
| VBool (b : bool)
| VNum (n : float)
| VStr (s : string)
| VArr (items : list value)
| VObj (fields : list (string * value))
| VNative (name : string).

Inductive exn : Type :=
| TypeError (what : string)
| ReferenceError (ident : string)
| Rejected (what : string)
| Error (message : string).

Inductive result (A : Type) : Type :=
| Ok (a : A)
| Throw (e : exn).
Arguments Ok {A} a.
Arguments Throw {A} e.

(** ToBoolean. *)
Definition truthy (v : value) : bool :=
  match v with
  | VUndef | VNull => false
  | VBool b => b
  | VNum n => negb (PrimFloat.eqb n 0) && negb (PrimFloat.is_nan n)
  | VStr s => negb (s =? "")
  | VArr _ | VObj _ | VNative _ => true
  end.

Fixpoint assoc (k : string) (fs : list (string * value)) : option value :=
  match fs with
  | [] => None
  | (k', v) :: rest => if k =? k' then Some v else assoc k rest
  end.

(** Names every ordinary object inherits. *)
Definition object_prototype : list string :=
  [ "constructor"; "hasOwnProperty"; "isPrototypeOf"; "propertyIsEnumerable";
    "toLocaleString"; "toString"; "valueOf"; "__proto__";
    "__defineGetter__"; "__defineSetter__"; "__lookupGetter__";
    "__lookupSetter__" ].

(** Names arrays, strings and numbers inherit besides. *)
Definition array_prototype : list string :=
  [ "at"; "concat"; "copyWithin"; "entries"; "every"; "fill"; "filter";
    "find"; "findIndex"; "findLast"; "findLastIndex"; "flat"; "flatMap";
    "forEach"; "includes"; "indexOf"; "join"; "keys"; "lastIndexOf"; "map";
    "pop"; "push"; "reduce"; "reduceRight"; "reverse"; "shift"; "slice";
    "some"; "sort"; "splice"; "toReversed"; "toSorted"; "toSpliced";
    "unshift"; "values"; "with" ].

Definition string_prototype : list string :=
  [ "anchor"; "at"; "big"; "blink"; "bold"; "charAt"; "charCodeAt";
    "codePointAt"; "concat"; "endsWith"; "fixed"; "fontcolor"; "fontsize";
    "includes"; "indexOf"; "isWellFormed"; "italics"; "lastIndexOf"; "link";
    "localeCompare"; "match"; "matchAll"; "normalize"; "padEnd"; "padStart";
    "repeat"; "replace"; "replaceAll"; "search"; "slice"; "small"; "split";
    "startsWith"; "strike"; "sub"; "substr"; "substring"; "sup";
    "toLocaleLowerCase"; "toLocaleUpperCase"; "toLowerCase"; "toUpperCase";
    "toWellFormed"; "trim"; "trimEnd"; "trimLeft"; "trimRight"; "trimStart" ].

Definition number_prototype : list string :=
  [ "toExponential"; "toFixed"; "toPrecision" ].

(** A member found on the prototype chain: some function or object of the
    host, truthy, with none of the data fields the script reads. *)
Definition builtin (names : list string) (k : string) : value :=
  if existsb (String.eqb k) names then VNative k else VUndef.

(** Array indices: the decimal numerals without a leading zero. *)
Definition digit (c : ascii) : option N :=
  let n := N_of_ascii c in
  if ((48 <=? n) && (n <=? 57))%N then Some (n - 48)%N else None.

Fixpoint numeral (acc : N) (s : string) : option N :=
  match s with
  | EmptyString => Some acc
  | String c rest =>
      match digit c with
      | Some d => numeral (10 * acc + d)%N rest
      | None => None
      end
  end.

Definition index_of (k : string) : option nat :=
  match k with
  | EmptyString => None
  | String c EmptyString => option_map N.to_nat (digit c)
  | String c _ =>
      if (N_of_ascii c =? 48)%N then None
      else option_map N.to_nat (numeral 0 k)
  end.

Definition length_of (n : nat) : value :=
  VNum (PrimFloat.of_uint63 (Uint63.of_Z (Z.of_nat n))).

(** [v[k]] and [v.k].  Reading a property of [undefined] or [null] throws.
    An object answers with its own property, else with what it inherits;
    an array and a string answer with an element, their [length], or what
    they inherit; numbers and booleans with what they inherit.  Of a
    built-in member itself nothing is represented: the script reads only
    data fields such as [lat] from it, and it has none. *)
Definition get (v : value) (k : string) : result value :=
  match v with
  | VUndef | VNull => Throw (TypeError k)
  | VObj fs =>
      match assoc k fs with
      | Some x => Ok x
      | None => Ok (builtin object_prototype k)
      end
  | VArr items =>
      Ok (match index_of k with
          | Some i => nth i items VUndef
          | None =>
              if k =? "length" then length_of (List.length items)
              else builtin (array_prototype ++ object_prototype) k
          end)
  | VStr s =>
      Ok (match index_of k with
          | Some i =>
              match String.get i s with
              | Some c => VStr (String c EmptyString)
              | None => VUndef
              end
          | None =>
              if k =? "length" then length_of (String.length s)
              else builtin (string_prototype ++ object_prototype) k
          end)
  | VNum _ => Ok (builtin (number_prototype ++ object_prototype) k)
  | VBool _ => Ok (builtin object_prototype k)
  | VNative _ => Ok VUndef
  end.

(** [{...v, k: x}]: the own properties of [v], then [k] set to [x].  The
    script spreads a parsed reply only after reading a truthy [lat] from
    it, which only an object has. *)
Fixpoint set_field (k : string) (x : value) (fs : list (string * value))
  : list (string * value) :=
  match fs with
  | [] => [(k, x)]
  | (k', v) :: rest =>
      if k =? k' then (k, x) :: rest else (k', v) :: set_field k x rest
  end.

Definition own_fields (v : value) : list (string * value) :=
  match v with
  | VObj fs => fs
  | _ => []
  end.

Definition spread_with (v : value) (k : string) (x : value) : value :=
  VObj (set_field k x (own_fields v)).

(** *** Numbers *)

(** The exact value of a finite float as [numerator / denominator]. *)
Definition exact (x : float) : option (Z * Z) :=
  match Prim2SF x with
  | S754_zero _ => Some (0, 1)%Z
  | S754_finite s m e =>
      let sm := if s then Z.neg m else Z.pos m in
      if (0 <=? e)%Z then Some (sm * 2 ^ e, 1)%Z
      else Some (sm, 2 ^ (- e))%Z
  | S754_infinity _ | S754_nan => None
  end.

Definition sign_bit (x : float) : bool :=
  match Prim2SF x with
  | S754_zero s | S754_infinity s | S754_finite s _ _ => s
  | S754_nan => false
  end.

Definition of_Z (n : Z) : float :=
  let a := PrimFloat.of_uint63 (Uint63.of_Z (Z.abs n)) in
  if (n <? 0)%Z then PrimFloat.opp a else a.

(** [Math.round]: the integer nearest to [x], ties towards plus infinity;
    a float with no fractional bits is returned as it is. *)
Definition Math_round (x : float) : float :=
  match exact x with
  | None => x
  | Some (n, d) =>
      if (d =? 1)%Z then x
      else
        let r := ((2 * n + d) / (2 * d))%Z in
        if (r =? 0)%Z then (if sign_bit x then (-0)%float else 0%float)
        else of_Z r
  end.

Definition integral (x : float) : option Z :=
  match exact x with
  | Some (n, d) => if (n mod d =? 0)%Z then Some (n / d)%Z else None
  | None => None
  end.

Definition decimal (n : Z) : string := NilZero.string_of_int (Z.to_int n).

(** Number::toString.  An integer below 2^53 is written out: every
    integer of that size is a float of its own, so its shortest digits
    are its digits.  For the remaining finite numbers (fractions, and the
    integers from 2^53 on, whose shortest digits end in zeros the exact
    value does not have) the printer of the host is taken as [other]. *)
Definition NumberToString (other : float -> string) (x : float) : string :=
  match Prim2SF x with
  | S754_nan => "NaN"
  | S754_infinity s => if s then "-Infinity" else "Infinity"
  | S754_zero _ => "0"
  | S754_finite _ _ _ =>
      match integral x with
      | Some n => if (Z.abs n <? 2 ^ 53)%Z then decimal n else other x
      | None => other x
      end
  end.

Fixpoint zeros (n : nat) : string :=
  match n with
  | O => ""
  | S n' => "0" ++ zeros n'
  end.

(** [x.toFixed(4)]. *)
Definition toFixed4 (other : float -> string) (x : float) : string :=
  match exact x with
  | None => NumberToString other x
  | Some (n, d) =>
      let a := Z.abs n in
      let s := if (n <? 0)%Z then "-" else "" in
      if (10 ^ 21 * d <=? a)%Z then s ++ NumberToString other (PrimFloat.abs x)
      else
        let k := ((2 * a * 10 ^ 4 + d) / (2 * d))%Z in
        let ds := decimal k in
        let m := zeros (5 - String.length ds) ++ ds in
        let cut := (String.length m - 4)%nat in
        s ++ substring 0 cut m ++ "." ++ substring cut 4 m
  end.

(** *** Strings

    A string is kept as its characters, one per code unit.  The functions
    below compute what JavaScript computes on ASCII text; case mapping and
    white space beyond ASCII are outside the model, and the statements that
    depend on them say so. *)

Definition ascii_char (c : ascii) : bool := (N_of_ascii c <? 128)%N.


Definition code (c : ascii) : N := N_of_ascii c.

Definition lower_char (c : ascii) : ascii :=
  if ((65 <=? code c) && (code c <=? 90))%N
  then ascii_of_N (code c + 32) else c.

Fixpoint toLowerCase (s : string) : string :=
  match s with
  | EmptyString => EmptyString
  | String c rest => String (lower_char c) (toLowerCase rest)
  end.

(** The character class [[\s,\.]] of the OCR tokenizer. *)
Definition is_separator (c : ascii) : bool :=
  ((9 <=? code c) && (code c <=? 13) || (code c =? 32)
   || (code c =? 44) || (code c =? 46))%N.

Fixpoint rev_string (acc s : string) : string :=
  match s with
  | EmptyString => acc
  | String c rest => rev_string (String c acc) rest
  end.

(** [s.split(/[\s,\.]+/)]: the pieces between maximal runs of separators;
    a leading or trailing run leaves an empty piece.  [cur] is the piece
    being read, reversed; [insep] tells that the last character was a
    separator. *)
Fixpoint split_go (insep : bool) (cur : string) (s : string) : list string :=
  match s with
  | EmptyString => [rev_string "" cur]
  | String c rest =>
      if is_separator c then
        if insep then split_go true cur rest
        else rev_string "" cur :: split_go true "" rest
      else split_go false (String c cur) rest
  end.

Definition split_separators (s : string) : list string := split_go false "" s.

Fixpoint forall_chars (p : ascii -> bool) (s : string) : bool :=
  match s with
  | EmptyString => true
  | String c rest => p c && forall_chars p rest
  end.

(** Text of ASCII characters only. *)
Definition ascii_text (s : string) : bool := forall_chars ascii_char s.

Definition is_lower_alpha (c : ascii) : bool :=
  ((97 <=? code c) && (code c <=? 122))%N.

(** [/^[a-z]+$/.test(w)] *)
Definition lower_alpha_word (w : string) : bool :=
  negb (w =? "") && forall_chars is_lower_alpha w.

Definition includes (xs : list string) (x : string) : bool :=
  existsb (String.eqb x) xs.

(** [[...new Set(xs)]]: first occurrences, in order. *)
Fixpoint dedup (seen : list string) (xs : list string) : list string :=
  match xs with
  | [] => []
  | x :: rest =>
      if includes seen x then dedup seen rest
      else x :: dedup (x :: seen) rest
  end.

Definition unique (xs : list string) : list string := dedup [] xs.

(** [s.replace(/\n/g, ' ')] *)
Fixpoint newlines_to_spaces (s : string) : string :=
  match s with
  | EmptyString => EmptyString
  | String c rest =>
      String (if (code c =? 10)%N then " "%char else c) (newlines_to_spaces rest)
  end.

Definition dquote : string := String "034"%char EmptyString.

(** [s.split(',')[1]] *)
Fixpoint after_comma (s : string) : option string :=
  match s with
  | EmptyString => None
  | String c rest => if (code c =? 44)%N then Some rest else after_comma rest
  end.

Fixpoint upto_comma (s : string) : string :=
  match s with
  | EmptyString => EmptyString
  | String c rest =>
      if (code c =? 44)%N then EmptyString else String c (upto_comma rest)
  end.

Definition split_comma_1 (s : string) : value :=
  match after_comma s with
  | Some rest => VStr (upto_comma rest)
  | None => VUndef
  end.

End JS.

(* ------------------------------------------------------------------ *)
(** ** The page, the external services and the effects of the script *)

Module Browser.
Import JS.

(** What the script puts on the Leaflet map. *)
Inductive layer : Type :=
| Marker (lat lng : value)
| Circle (lat lng : value) (color fillColor : string)
         (fillOpacity radius : float).

(** The DOM nodes of [nodes], by element id, and the map state of [state]. *)
Record Page : Type := mkPage {
  prefer_value : string;
  text : string -> string;
  color : string -> string;
  classes : string -> list string;
  markers : list layer;
  view : option (value * value * float)
}.

Definition override {A : Type} (f : string -> A) (k : string) (a : A)
  : string -> A :=
  fun k' => if k' =? k then a else f k'.

Definition with_text (id s : string) (p : Page) : Page :=
  mkPage (prefer_value p) (override (text p) id s) (color p) (classes p)
         (markers p) (view p).

Definition with_color (id c : string) (p : Page) : Page :=
  mkPage (prefer_value p) (text p) (override (color p) id c) (classes p)
         (markers p) (view p).

Definition with_classes (id : string) (cs : list string) (p : Page) : Page :=
  mkPage (prefer_value p) (text p) (color p) (override (classes p) id cs)
         (markers p) (view p).

Definition with_markers (ms : list layer) (p : Page) : Page :=
  mkPage (prefer_value p) (text p) (color p) (classes p) ms (view p).

Definition with_view (lat lng : value) (zoom : float) (p : Page) : Page :=
  mkPage (prefer_value p) (text p) (color p) (classes p) (markers p)
         (Some (lat, lng, zoom)).

(** An HTTP response: its [ok] flag and what [json()] resolves to. *)
Record response : Type := mkResponse {
  ok : bool;
  body : result value
}.

(** Everything outside the script.  Each field is the outcome of one
    awaited call; [Throw] is a rejected promise or a thrown error.  The
    text of a model reply is represented by what [JSON.parse] makes of it.
    [VITE_IMG_BB] and [SERP_AI] are the keys the build puts in place of
    [import.meta.env.VITE_IMG_BB] and [process.env.SERP_AI].
    [host_string] and [host_number] stand for the conversions of the host
    that [JS] does not compute (ToString of fractions, arrays and objects,
    ToNumber of strings, arrays and objects).  part_000 reaches [cocoSsd]
    as a global of the page: a [ReferenceError] as [cocoSsd_load] is the
    page without that global, where no call is made.  [flyTo] is what
    Leaflet makes of [state.map.flyTo([lat, lng], zoom)]: it throws for a
    position it cannot animate to. *)
Record World : Type := mkWorld {
  VITE_IMG_BB : string;
  SERP_AI : string;
  fetch : string -> value -> result response;
  generateContent : string -> value -> string -> result value;
  mobilenet_load : result unit;
  mobilenet_classify : result value;
  Tesseract_recognize : string -> string -> result value;
  cocoSsd_load : result unit;
  cocoSsd_detect : result value;
  host_string : value -> string;
  host_number : value -> float;
  flyTo : value -> value -> float -> result unit
}.

(** What a run does that is visible outside it, in order. *)
Inductive event : Type :=
| Fetch (url : string) (payload : value)
| Generate (model : string) (image : value) (prompt : string)
| LoadModel (library : string)
| Classify (library : string)
| Recognize (languages : string)
| ConsoleLog (args : list value)
| ConsoleWarn (message : string) (e : option exn)
| ConsoleError (e : exn).

Record State : Type := mkState {
  page : Page;
  trace : list event
}.

(** Computations of the script: they read the world, change the page,
    extend the trace, and return or throw. *)
Definition M (A : Type) : Type := World -> State -> result A * State.

Definition ret {A : Type} (a : A) : M A := fun _ s => (Ok a, s).

Definition throw {A : Type} (e : exn) : M A := fun _ s => (Throw e, s).

Definition bind {A B : Type} (m : M A) (k : A -> M B) : M B :=
  fun w s =>
    match m w s with
    | (Ok a, s') => k a w s'
    | (Throw e, s') => (Throw e, s')
    end.

(** [try { m } catch (e) { h e }] *)
Definition try_catch {A : Type} (m : M A) (h : exn -> M A) : M A :=
  fun w s =>
    match m w s with
    | (Ok a, s') => (Ok a, s')
    | (Throw e, s') => h e w s'
    end.

Declare Scope js_scope.
Delimit Scope js_scope with js.
Notation "x <- m ;; k" := (bind m (fun x => k))
  (at level 61, m at next level, right associativity) : js_scope.
Notation "m ;; k" := (bind m (fun _ => k))
  (at level 61, right associativity) : js_scope.
Open Scope js_scope.

Definition lift {A : Type} (r : result A) : M A := fun _ s => (r, s).

Definition ask {A : Type} (f : World -> A) : M A := fun w s => (Ok (f w), s).

Definition emit (e : event) : M unit :=
  fun _ s => (Ok tt, mkState (page s) (trace s ++ [e])).

Definition update (f : Page -> Page) : M unit :=
  fun _ s => (Ok tt, mkState (f (page s)) (trace s)).

Definition read {A : Type} (f : Page -> A) : M A :=
  fun _ s => (Ok (f (page s)), s).

(** *** Conversions *)

Definition to_number (w : World) (v : value) : float :=
  match v with
  | VNum n => n
  | VUndef => nan
  | VNull => 0%float
  | VBool b => if b then 1%float else 0%float
  | _ => host_number w v
  end.

Definition number_string (w : World) (n : float) : string :=
  NumberToString (fun x => host_string w (VNum x)) n.

Definition to_string (w : World) (v : value) : string :=
  match v with
  | VStr s => s
  | VUndef => "undefined"
  | VNull => "null"
  | VBool b => if b then "true" else "false"
  | VNum n => number_string w n
  | _ => host_string w v
  end.

Definition ToNumber (v : value) : M float := ask (fun w => to_number w v).
Definition ToString (v : value) : M string := ask (fun w => to_string w v).

(** The [textContent] setter: [null] and [undefined] clear the node.  The
    script assigns [innerText] string literals only, which both setters
    store as they are. *)
Definition node_text (w : World) (v : value) : string :=
  match v with
  | VUndef | VNull => ""
  | _ => to_string w v
  end.

(** *** Operations of the script's vocabulary *)

Definition prop (v : value) (k : string) : M value := lift (get v k).

(** [v?.k] *)
Definition prop_opt (v : value) (k : string) : M value :=
  match v with
  | VUndef | VNull => ret VUndef
  | _ => prop v k
  end.

Fixpoint mapM {A B : Type} (f : A -> M B) (xs : list A) : M (list B) :=
  match xs with
  | [] => ret []
  | x :: rest => y <- f x ;; ys <- mapM f rest ;; ret (y :: ys)
  end.

(** [v.map(f)]: only arrays have [map]. *)
Definition array_map {B : Type} (v : value) (f : value -> M B) : M (list B) :=
  match v with
  | VArr items => mapM f items
  | _ => throw (TypeError "map")
  end.

(** [xs.join(sep)]: [undefined] and [null] items give the empty string. *)
Definition join (sep : string) (xs : list value) : M string :=
  ask (fun w =>
    String.concat sep
      (map (fun x => match x with
                     | VUndef | VNull => ""
                     | _ => to_string w x
                     end) xs)).

(** [v.toLowerCase()] *)
Definition lower (v : value) : M string :=
  match v with
  | VStr s => ret (toLowerCase s)
  | _ => throw (TypeError "toLowerCase")
  end.

(** [v.toFixed(4)]: only numbers have [toFixed]. *)
Definition toFixed_4 (v : value) : M string :=
  match v with
  | VNum n => ask (fun w => toFixed4 (fun x => host_string w (VNum x)) n)
  | _ => throw (TypeError "toFixed")
  end.

(** The global [isNaN]. *)
Definition isNaN (v : value) : M bool :=
  n <- ToNumber v ;; ret (PrimFloat.is_nan n).

(** [v < k] for a number literal [k]. *)
Definition less_than (v : value) (k : float) : M bool :=
  n <- ToNumber v ;; ret (PrimFloat.ltb n k).

Definition console_log (args : list value) : M unit := emit (ConsoleLog args).
Definition console_warn (msg : string) (e : exn) : M unit :=
  emit (ConsoleWarn msg (Some e)).
Definition console_warn_1 (msg : string) : M unit :=
  emit (ConsoleWarn msg None).
Definition console_error (e : exn) : M unit := emit (ConsoleError e).

Definition classList_add (id c : string) : M unit :=
  update (fun p =>
    with_classes id
      (if includes (classes p id) c then classes p id else classes p id ++ [c])
      p).

Definition classList_remove (id c : string) : M unit :=
  update (fun p =>
    with_classes id (filter (fun c' => negb (c' =? c)) (classes p id)) p).

Definition set_text (id : string) (v : value) : M unit :=
  fun w s => update (with_text id (node_text w v)) w s.

Definition set_color (id c : string) : M unit := update (with_color id c).

(** [state.map.flyTo([lat, lng], zoom)] *)
Definition fly (lat lng : value) (zoom : float) : M unit :=
  moved <- ask (fun w => flyTo w lat lng zoom) ;;
  lift moved ;;
  update (with_view lat lng zoom).

(** [await fetch(url, ...)] *)
Definition do_fetch (url : string) (payload : value) : M response :=
  emit (Fetch url payload) ;;
  r <- ask (fun w => fetch w url payload) ;;
  lift r.

(** [await r.json()] *)
Definition json (r : response) : M value := lift (body r).

(** Lexical scope: the bindings an expression can see.  Reading an
    identifier that is not bound throws a ReferenceError. *)
Definition scope : Type := list (string * value).

Definition ident (sc : scope) (x : string) : M value :=
  match assoc x sc with
  | Some v => ret v
  | None => throw (ReferenceError x)
  end.

Definition run {A : Type} (m : M A) (w : World) (p : Page)
  : result A * State :=
  m w (mkState p []).

End Browser.

(* ------------------------------------------------------------------ *)
(** ** What the two variants of the script share *)

Module Common.
Import JS Browser.

Definition nl : string := String "010"%char EmptyString.

(** [ai.models.generateContent({model, contents: {parts: [image, text]},
    config})] followed by [JSON.parse(aiResponse.text)]. *)
Definition generate (model base64Image text : string) : M value :=
  let image := split_comma_1 base64Image in
  emit (Generate model image text) ;;
  r <- ask (fun w => generateContent w model image text) ;;
  lift r.

(** [if (parsed.lat && parsed.lng) return { ...parsed, source }]:
    [Some] is the value returned, [None] falls out of the [if]. *)
Definition accept (parsed : value) (source : string) : M (option value) :=
  lat <- prop parsed "lat" ;;
  if truthy lat then
    lng <- prop parsed "lng" ;;
    if truthy lng then ret (Some (spread_with parsed "source" (VStr source)))
    else ret None
  else ret None.

Definition push (l : layer) : M unit :=
  update (fun p => with_markers (markers p ++ [l]) p).

Section Render.

(** The constant of the guard [data.confidence < ...], the one place where
    [renderResults] differs between the variants. *)
Variable threshold : float.

Definition renderResults_at (data : value) : M unit :=
  confidence <- prop data "confidence" ;;
  low <- less_than confidence threshold ;;
  if low then
    set_text "statusMessage" (VStr "Very Low confidence") ;;
    set_color "statusMessage" "red" ;;
    classList_remove "previewImg" "blur"
  else
    classList_add "statusMessage" "hidden" ;;
    classList_remove "resultsContent" "hidden" ;;
    classList_remove "previewImg" "blur" ;;
    source <- prop data "source" ;;
    badge <- ToString source ;;
    set_text "engineBadge" (VStr ("Active Engine: " ++ badge)) ;;
    summary <- prop data "visualAnalysisSummary" ;;
    shown <- (if truthy summary then ret summary else prop data "reasoning") ;;
    inference <- ToString shown ;;
    set_text "inferenceText" (VStr (dquote ++ inference ++ dquote)) ;;
    city <- prop data "city" ;;
    set_text "locCity" city ;;
    country <- prop data "country" ;;
    set_text "locCountry" country ;;
    confidence <- prop data "confidence" ;;
    c <- ToNumber confidence ;;
    percent <- ask (fun w => number_string w (Math_round (c * 100 - 10))) ;;
    set_text "locConfidence" (VStr ("Certainty: " ++ percent ++ "%")) ;;
    lat <- prop data "lat" ;;
    latText <- toFixed_4 lat ;;
    lng <- prop data "lng" ;;
    lngText <- toFixed_4 lng ;;
    set_text "locCoords" (VStr (latText ++ ", " ++ lngText)) ;;
    reasoning <- prop data "reasoning" ;;
    set_text "locReasoning" reasoning ;;
    update (with_markers []) ;;
    latNaN <- isNaN lat ;;
    lngNaN <- isNaN lng ;;
    if negb latNaN && negb lngNaN then
      push (Marker lat lng) ;;
      preference <- read prefer_value ;;
      (if preference =? "" then
         push (Circle lat lng "#3388ff" "#3388ff" 0.2 1000) ;;
         console_log [VStr "50"]
       else
         push (Circle lat lng "#3388ff" "#3388ff" 0.2 500)) ;;
      fly lat lng 15
    else ret tt.

End Render.

(** The [reader.onload] handler of [handleFileSelect].  The [src] of the
    preview image is not part of [Page]. *)
Definition handleFileSelect (identifyLocation : string -> M value)
    (renderResults : value -> M unit) (base64Image : string) : M unit :=
  classList_add "emptyState" "hidden" ;;
  classList_remove "resultView" "hidden" ;;
  classList_add "previewImg" "blur" ;;
  classList_add "resultsContent" "hidden" ;;
  classList_remove "statusMessage" "hidden" ;;
  set_text "statusMessage" (VStr "Analyzing image location...") ;;
  set_color "statusMessage" "#5f6368" ;;
  try_catch
    (result <- identifyLocation base64Image ;;
     renderResults result)
    (fun err =>
       console_error err ;;
       set_text "statusMessage" (VStr "All Scans Failed, Location Not Found") ;;
       set_color "statusMessage" "#d93025").

End Common.

(* ------------------------------------------------------------------ *)
(** ** src/index.js *)

Module IndexJs.
Import JS Browser Common.

Definition Vision (base64Image : string) : M string :=
  preference <- read prefer_value ;;
  let image := split_comma_1 base64Image in
  console_log [VStr "Initiating ImgBB upload..."] ;;
  key <- ask VITE_IMG_BB ;;
  imgbb <- do_fetch ("https://api.imgbb.com/1/upload?key=" ++ key) image ;;
  imgbbResponse <- json imgbb ;;
  data <- prop imgbbResponse "data" ;;
  imageUrl <- prop data "url" ;;
  console_log [VStr "Image URL:"; imageUrl] ;;
  url <- ToString imageUrl ;;
  serp <- ask SERP_AI ;;
  serpinit <- do_fetch ("/search.json?engine=google_lens&url=" ++ url
                        ++ "&api_key=" ++ serp
                        ++ "&preference=" ++ preference) VUndef ;;
  Response <- json serpinit ;;
  console_log [Response] ;;
  overview <- prop Response "ai_overview" ;;
  references <- prop_opt overview "references" ;;
  if negb (truthy references) then
    matches <- prop Response "visual_matches" ;;
    titles <- array_map matches (fun item => prop item "title") ;;
    join ", " titles
  else
    overview <- prop Response "ai_overview" ;;
    references <- prop overview "references" ;;
    snippets <- array_map references (fun item => prop item "snippet") ;;
    join ", " snippets.

(** The instruction text both attempts build; [preference] and
    [serpResponse] are read from the scope of the attempt. *)
Definition prompt (sc : scope) : M string :=
  preference <- ident sc "preference" ;;
  p <- ToString preference ;;
  serpResponse <- ident sc "serpResponse" ;;
  hints <- ToString serpResponse ;;
  ret ("Locate this image. Be precise. prefer " ++ p
       ++ ",search on web and Return a JSON object with lat, lng, city, country, confidence, and reasoning."
       ++ nl
       ++ "          make sure if the image dosent have unique visuals,to the point names which defines the place. it looks like multiple places then give your response with the confidence in the range of 0.4 to 0.6"
       ++ nl
       ++ "          the hints image got from the google lens=" ++ hints).

Definition parameters (base64Image : string) (file : value) : scope :=
  [("base64Image", VStr base64Image); ("file", file)].

(** 1. Try Gemini AI.  The hint lookup sits inside the same [try]. *)
Definition primary (base64Image : string) (file : value) : M (option value) :=
  try_catch
    (serpResponse <- Vision base64Image ;;
     console_log [VStr "Serp Response:"; VStr serpResponse] ;;
     preference <- read prefer_value ;;
     let sc := ([("serpResponse", VStr serpResponse);
                 ("preference", VStr preference)]
                ++ parameters base64Image file)%list in
     text <- prompt sc ;;
     parsed <- generate "gemini-3-flash-preview" base64Image text ;;
     accept parsed "Gemini 3 Flash")
    (fun e =>
       console_warn "AI Analysis failed, trying other models" e ;;
       ret None).

(** Fallback: secondary model.  Its block declares [preference] only, and
    neither the function nor the module binds [serpResponse]. *)
Definition secondary (base64Image : string) (file : value) : M (option value) :=
  try_catch
    (preference <- read prefer_value ;;
     let sc := ([("preference", VStr preference)]
                ++ parameters base64Image file)%list in
     text <- prompt sc ;;
     parsed <- generate "gemini-2.5-flash-lite" base64Image text ;;
     accept parsed "Gemini 2.5 Flash")
    (fun err =>
       console_warn "Secondary AI failed" err ;;
       ret None).

(** The local fallback that follows in the file is inside a block comment;
    the function ends after the secondary attempt and returns [undefined]. *)
Definition identifyLocation (base64Image : string) (file : value) : M value :=
  first <- primary base64Image file ;;
  match first with
  | Some guess => ret guess
  | None =>
      second <- secondary base64Image file ;;
      match second with
      | Some guess => ret guess
      | None => ret VUndef
      end
  end.

Definition renderResults : value -> M unit := renderResults_at 0.

Definition handleFileSelect (base64Image : string) (file : value) : M unit :=
  Common.handleFileSelect (fun img => identifyLocation img file)
    renderResults base64Image.

(** [uniqueTerms.find(term => dataset[term])] *)
Fixpoint find_term (dataset : value) (terms : list string) : M (option string) :=
  match terms with
  | [] => ret None
  | term :: rest =>
      entry <- prop dataset term ;;
      if truthy entry then ret (Some term) else find_term dataset rest
  end.

(** [ocrText.replace(/\n/g, ' ').substring(0, 60)] *)
Definition excerpt (ocrText : value) : M string :=
  match ocrText with
  | VStr s => ret (substring 0 60 (newlines_to_spaces s))
  | _ => throw (TypeError "replace")
  end.

(** The default fallback state of [result]. *)
Definition default_result (objects : list string) (shown : string) : value :=
  VObj
    [ ("source", VStr "Fallback: Local MobileNet + OCR");
      ("lat", VNum 48.8566);
      ("lng", VNum 2.3522);
      ("city", VStr "Error Location");
      ("country", VStr "Unknown");
      ("confidence", VNum 0.2);
      ("reasoning",
       VStr "Local analysis could not match features to the database.");
      ("visualAnalysisSummary",
       VStr ("Detected Objects: " ++ String.concat ", " objects
             ++ ". OCR Text: " ++ dquote ++ shown ++ "..." ++ dquote)) ].

(** [result.k = x] *)
Definition assign (k : string) (x : value) (result : value) : value :=
  spread_with result k x.

(** The candidate terms: classifier labels, then OCR words. *)
Definition ocr_words (lowered : string) : list string :=
  filter (fun w => (3 <? String.length w)%nat && lower_alpha_word w)
         (split_separators lowered).

Definition unique_terms (objects ocrWords : list string) : list string :=
  unique (objects ++ ocrWords)%list.

(** The body of the [try] around the dataset lookup.  Once an entry is
    found it is truthy, so none of the property reads that follow can
    throw and the assignments to [result] happen together. *)
Definition match_dataset (uniqueTerms ocrWords : list string) (result : value)
  : M value :=
  response <- do_fetch "./dataset.json" VUndef ;;
  if ok response then
    dataset <- json response ;;
    matchedKey <- find_term dataset uniqueTerms ;;
    match matchedKey with
    | None => ret result
    | Some key =>
        if key =? "" then ret result
        else
          entry <- prop dataset key ;;
          if truthy entry then
            let isOcrMatch := includes ocrWords key in
            lat <- prop entry "lat" ;;
            lng <- prop entry "lng" ;;
            city <- prop entry "city" ;;
            country <- prop entry "country" ;;
            reasoning <- prop entry "reasoning" ;;
            why <- ToString reasoning ;;
            ret (assign "reasoning"
                   (VStr ("Local AI identified '" ++ key ++ "' via "
                          ++ (if isOcrMatch then "Text Analysis"
                              else "Visual Recognition")
                          ++ ". " ++ why))
                (assign "confidence"
                   (VNum (if isOcrMatch then 0.7 else 0.4))
                (assign "country" country
                (assign "city" city
                (assign "lng" lng
                (assign "lat" lat result))))))
          else ret result
    end
  else ret result.

(** [runLocalObjectAnalysis]; nothing in this file calls it. *)
Definition runLocalObjectAnalysis (imgElement base64Image : string) : M value :=
  set_text "statusMessage" (VStr "Running Local Vision & OCR Analysis...") ;;
  emit (LoadModel "mobilenet") ;;
  emit (Recognize "eng+hin+fra") ;;
  loading <- ask mobilenet_load ;;
  reading <- ask (fun w => Tesseract_recognize w base64Image "eng+hin+fra") ;;
  lift loading ;;
  ocrResult <- lift reading ;;
  emit (Classify "mobilenet") ;;
  classified <- ask mobilenet_classify ;;
  predictions <- lift classified ;;
  data <- prop ocrResult "data" ;;
  recognized <- prop data "text" ;;
  let ocrText := if truthy recognized then recognized else VStr "" in
  objects <- array_map predictions
               (fun p =>
                  className <- prop p "className" ;;
                  label <- (if truthy className then ret className
                            else prop p "class") ;;
                  lower label) ;;
  lowered <- lower ocrText ;;
  let ocrWords := ocr_words lowered in
  let uniqueTerms := unique_terms objects ocrWords in
  console_log [VStr "Local Analysis Terms:"; VArr (map VStr uniqueTerms)] ;;
  shown <- excerpt ocrText ;;
  let result := default_result objects shown in
  try_catch
    (match_dataset uniqueTerms ocrWords result)
    (fun e =>
       console_warn "Error loading or parsing dataset.json" e ;;
       ret result).

End IndexJs.

(* ------------------------------------------------------------------ *)
(** ** src/unnamed/part_000, the earlier variant *)

Module Part000.
Import JS Browser Common.

Definition prompt (sc : scope) : M string :=
  preference <- ident sc "preference" ;;
  p <- ToString preference ;;
  ret ("Locate this image. Be precise. prefer " ++ p
       ++ ", Return a JSON object with lat, lng, city, country, confidence, and reasoning.").

Definition parameters (base64Image : string) (file : value) : scope :=
  [("base64Image", VStr base64Image); ("file", file)].

(** The body both remote attempts share, up to model and source label. *)
Definition attempt (model source base64Image : string) (file : value)
  : M (option value) :=
  preference <- read prefer_value ;;
  let sc := ([("preference", VStr preference)]
             ++ parameters base64Image file)%list in
  text <- prompt sc ;;
  parsed <- generate model base64Image text ;;
  accept parsed source.

(** SameValueZero, the equality of [Set]: the objects and arrays of a
    parsed document are all distinct references. *)
Definition same_value_zero (a b : value) : bool :=
  match a, b with
  | VUndef, VUndef | VNull, VNull => true
  | VBool x, VBool y => Bool.eqb x y
  | VNum x, VNum y =>
      PrimFloat.eqb x y || (PrimFloat.is_nan x && PrimFloat.is_nan y)
  | VStr x, VStr y => x =? y
  | _, _ => false
  end.

Fixpoint dedup_values (seen xs : list value) : list value :=
  match xs with
  | [] => []
  | x :: rest =>
      if existsb (same_value_zero x) seen then dedup_values seen rest
      else x :: dedup_values (x :: seen) rest
  end.

(** [uniqueObjects.find(obj => dataset[obj])] *)
Fixpoint find_object (dataset : value) (objects : list value)
  : M (option value) :=
  match objects with
  | [] => ret None
  | obj :: rest =>
      key <- ToString obj ;;
      entry <- prop dataset key ;;
      if truthy entry then ret (Some obj) else find_object dataset rest
  end.

(** [Object.keys(v)] *)
Definition keys (v : value) : M value :=
  match v with
  | VUndef | VNull => throw (TypeError "keys")
  | VObj fs => ret (VArr (map (fun kv => VStr (fst kv)) fs))
  | VArr items =>
      ret (VArr (map (fun i => VStr (decimal (Z.of_nat i)))
                     (seq 0 (List.length items))))
  | VStr s =>
      ret (VArr (map (fun i => VStr (decimal (Z.of_nat i)))
                     (seq 0 (String.length s))))
  | _ => ret (VArr [])
  end.

(** The local variables [lat, lng, city, country, reasoning]. *)
Record locals : Type := mkLocals {
  lat : value;
  lng : value;
  city : value;
  country : value;
  reasoning : value
}.

(** [lat = match.lat; ...; reasoning = `Local AI detected '...'. ...`] *)
Definition take (entry matchedKey : value) : M locals :=
  lat <- prop entry "lat" ;;
  lng <- prop entry "lng" ;;
  city <- prop entry "city" ;;
  country <- prop entry "country" ;;
  key <- ToString matchedKey ;;
  why <- prop entry "reasoning" ;;
  because <- ToString why ;;
  ret (mkLocals lat lng city country
         (VStr ("Local AI detected '" ++ key ++ "'. " ++ because))).

(** The body of the [try] around the dataset lookup.  [take] throws only
    at its first read, before any variable is assigned. *)
Definition match_dataset (uniqueObjects : list value) (vars : locals)
  : M locals :=
  response <- do_fetch "./dataset.json" VUndef ;;
  if ok response then
    dataset <- json response ;;
    console_log [VStr "Local AI Detected:"; VArr uniqueObjects] ;;
    names <- keys dataset ;;
    console_log [VStr "Dataset Keys:"; names] ;;
    matchedKey <- find_object dataset uniqueObjects ;;
    let found := match matchedKey with Some obj => obj | None => VUndef end in
    if truthy found then
      console_log [VStr "Applying match for:"; found] ;;
      key <- ToString found ;;
      entry <- prop dataset key ;;
      take entry found
    else
      console_warn_1 "No matching object found in dataset.json. Using defaults." ;;
      entry <- prop dataset "auto_rickshaw" ;;
      take entry found
  else ret vars.

(** [v.length === 0] *)
Definition length_is_zero (v : value) : bool :=
  match v with
  | VArr items => match items with [] => true | _ :: _ => false end
  | VStr s => s =? ""
  | VObj fs =>
      match assoc "length" fs with
      | Some (VNum n) => PrimFloat.eqb n 0
      | _ => false
      end
  | _ => false
  end.

(** [cocoSsd] is not declared in the file: it is a global of the page.
    Where the page lacks it, evaluating [cocoSsd.load()] throws before
    anything is called. *)
Definition runLocalObjectAnalysis (imgElement : string) : M value :=
  loading <- ask cocoSsd_load ;;
  match loading with
  | Throw (ReferenceError _) => ret tt
  | _ => emit (LoadModel "cocoSsd")
  end ;;
  lift loading ;;
  console_log [VStr "local test begins"] ;;
  set_text "statusMessage" (VStr "Running Local Test") ;;
  emit (Classify "cocoSsd") ;;
  detected <- ask cocoSsd_detect ;;
  predictions <- lift detected ;;
  if negb (truthy predictions) || length_is_zero predictions then
    throw (Error "No objects detected locally.")
  else
    objects <- array_map predictions (fun p => prop p "class") ;;
    let uniqueObjects := dedup_values [] objects in
    listed <- join ", " uniqueObjects ;;
    let vars :=
      mkLocals (VNum 48.8566) (VNum 2.3522) (VStr "Populated Area")
        (VStr "Inferred from Objects")
        (VStr ("Local AI detected: " ++ listed
               ++ ". Scene contains common objects indicating human presence.")) in
    vars <- try_catch
              (match_dataset uniqueObjects vars)
              (fun e =>
                 console_warn "Error loading or parsing dataset.json" e ;;
                 ret vars) ;;
    listed <- join ", " uniqueObjects ;;
    ret (VObj
           [ ("source", VStr "Fallback: Local TensorFlow.js");
             ("lat", lat vars);
             ("lng", lng vars);
             ("city", city vars);
             ("country", country vars);
             ("confidence", VNum 0.4);
             ("reasoning", reasoning vars);
             ("visualAnalysisSummary",
              VStr ("Browser-based Neural Network identified: " ++ listed
                    ++ ".")) ]).

(** The secondary attempt sits in the [catch] of the first: it runs only
    when the first attempt threw. *)
Definition remote (base64Image : string) (file : value) : M (option value) :=
  try_catch
    (attempt "gemini-3-flash-preview" "Gemini-3-Flash AI" base64Image file)
    (fun e =>
       console_warn "AI Analysis failed, trying other models" e ;;
       try_catch
         (attempt "gemini-2.5-flash" "Gemini-2.5-Flash AI" base64Image file)
         (fun err =>
            console_warn "Secondary AI failed" err ;;
            ret None)).

(** 3. Fallback: local object detection. *)
Definition local : M (option value) :=
  try_catch
    (set_text "statusMessage" (VStr "local test begins") ;;
     data <- runLocalObjectAnalysis "previewImg" ;;
     ret (Some data))
    (fun e =>
       console_warn "Local AI failed" e ;;
       ret None).

Definition identifyLocation (base64Image : string) (file : value) : M value :=
  first <- remote base64Image file ;;
  match first with
  | Some guess => ret guess
  | None =>
      last <- local ;;
      match last with
      | Some data => ret data
      | None => ret VUndef
      end
  end.

Definition renderResults : value -> M unit := renderResults_at 0.3.

Definition handleFileSelect (base64Image : string) (file : value) : M unit :=
  Common.handleFileSelect (fun img => identifyLocation img file)
    renderResults base64Image.

End Part000.

(* ------------------------------------------------------------------ *)
(** ** Vocabulary of the properties *)

Module Spec.
Import JS Browser.

(** Structural validity as the specification words it: latitude and
    longitude present, finite and within [-90, 90] and [-180, 180], and a
    confidence present. *)
Definition within (lo hi : float) (v : value) : bool :=
  match v with
  | VNum x => PrimFloat.leb lo x && PrimFloat.leb x hi
  | _ => false
  end.

Definition present (v : value) : bool :=
  match v with
  | VUndef | VNull => false
  | _ => true
  end.

Definition structurally_valid (guess : value) : bool :=
  match get guess "lat", get guess "lng", get guess "confidence" with
  | Ok lat, Ok lng, Ok confidence =>
      within (-90) 90 lat && within (-180) 180 lng && present confidence
  | _, _, _ => false
  end.

(** A reply in which field [k] is missing. *)
Definition absent (parsed : value) (k : string) : bool :=
  match get parsed k with
  | Ok v => negb (present v)
  | Throw _ => false
  end.

(** Reading the trace of a run. *)
Definition is_request (model : string) (e : event) : bool :=
  match e with
  | Generate m _ _ => m =? model
  | _ => false
  end.

Definition is_local (e : event) : bool :=
  match e with
  | LoadModel _ | Classify _ | Recognize _ => true
  | _ => false
  end.

Definition requested (model : string) (tr : list event) : bool :=
  existsb (is_request model) tr.

Definition ran_local (tr : list event) : bool := existsb is_local tr.

Definition returned {A : Type} (r : result A) : bool :=
  match r with
  | Ok _ => true
  | Throw _ => false
  end.

(** [dataset[term]] is truthy. *)
Definition hits (dataset : value) (term : string) : bool :=
  match get dataset term with
  | Ok entry => truthy entry
  | Throw _ => false
  end.

(** The recognizers of the local engine answered: the classifier with one
    prediction per label of [labels], the text recognizer with [text]. *)
Record recognized (w : World) (base64Image : string) (labels : list string)
    (text : string) : Prop := mkRecognized {
  model_loaded : mobilenet_load w = Ok tt;
  image_classified :
    exists predictions,
      mobilenet_classify w = Ok (VArr predictions)
      /\ Forall2 (fun p l => get p "className" = Ok (VStr l) /\ l <> "")
           predictions labels;
  text_read :
    exists ocrResult data,
      Tesseract_recognize w base64Image "eng+hin+fra" = Ok ocrResult
      /\ get ocrResult "data" = Ok data
      /\ get data "text" = Ok (VStr text)
}.

(** The dataset cannot be loaded: the request is rejected, the response
    is not OK, or its body does not parse. *)
Definition dataset_unavailable (w : World) : bool :=
  match fetch w "./dataset.json" VUndef with
  | Throw _ => true
  | Ok response => negb (ok response) || negb (returned (body response))
  end.

(** A computation only adds events that satisfy [P] to the trace. *)
Definition emits {A : Type} (P : event -> bool) (m : M A) : Prop :=
  forall w s, exists new,
    trace (snd (m w s)) = (trace s ++ new)%list /\ forallb P new = true.

(** A computation that never throws. *)
Definition safe {A : Type} (m : M A) : Prop :=
  forall w s, returned (fst (m w s)) = true.

End Spec.

(** ** Concrete runs used as examples *)

Module Scenario.
Import JS Browser.

Definition blank : Page :=
  mkPage "" (fun _ => "") (fun _ => "") (fun _ => []) [] None.


Definition img : string := "data:image/jpeg;base64,AAAA".

(** No service answers: every request is rejected, the page has no
    [cocoSsd] global. *)
Definition offline : World :=
  mkWorld "imgbb-key" "serp-key"
    (fun _ _ => Throw (Rejected "fetch"))
    (fun _ _ _ => Throw (Rejected "generateContent"))
    (Throw (Rejected "mobilenet.load"))
    (Throw (Rejected "classify"))
    (fun _ _ => Throw (Rejected "Tesseract.recognize"))
    (Throw (ReferenceError "cocoSsd"))
    (Throw (Rejected "detect"))
    (fun _ => "")
    (fun _ => nan)
    (fun _ _ _ => Ok tt).

Definition uploaded : response :=
  mkResponse true
    (Ok (VObj [("data", VObj [("url", VStr "https://i.ibb.co/x.jpg")])])).

Definition lens : response :=
  mkResponse true
    (Ok (VObj [("visual_matches",
                VArr [VObj [("title", VStr "Old Quarter")];
                      VObj [("title", VStr "Hoan Kiem")]])])).

Definition dataset : response :=
  mkResponse true
    (Ok (VObj
           [("hanoi", VObj [("lat", VNum 21.0285); ("lng", VNum 105.8542);
                            ("city", VStr "Hanoi"); ("country", VStr "Vietnam");
                            ("reasoning", VStr "Signage names Hanoi.")]);
            ("temple", VObj [("lat", VNum 13.4125); ("lng", VNum 103.867);
                             ("city", VStr "Siem Reap");
                             ("country", VStr "Cambodia");
                             ("reasoning", VStr "Temple architecture.")])])).

(** The network of a working deployment. *)
Definition network (url : string) (payload : value) : result response :=
  if String.prefix "https://api.imgbb.com/" url then Ok uploaded
  else if String.prefix "/search.json" url then Ok lens
  else if url =? "./dataset.json" then Ok dataset
  else Throw (Rejected "fetch").

(** Every service answers; both models answer [reply]; the classifier
    sees [labels] and the text recognizer reads [words]. *)
Definition online (reply : value) (labels : list string) (words : string)
  : World :=
  mkWorld "imgbb-key" "serp-key"
    network
    (fun _ _ _ => Ok reply)
    (Ok tt)
    (Ok (VArr (map (fun l => VObj [("className", VStr l)]) labels)))
    (fun _ _ => Ok (VObj [("data", VObj [("text", VStr words)])]))
    (Ok tt)
    (Ok (VArr (map (fun l => VObj [("class", VStr l)]) labels)))
    (fun _ => "")
    (fun _ => nan)
    (fun _ _ _ => Ok tt).

(** The models answer [reply]; the image host and the relay do not. *)
Definition upload_down (reply : value) : World :=
  mkWorld "imgbb-key" "serp-key"
    (fun _ _ => Throw (Rejected "fetch"))
    (fun _ _ _ => Ok reply)
    (Throw (Rejected "mobilenet.load"))
    (Throw (Rejected "classify"))
    (fun _ _ => Throw (Rejected "Tesseract.recognize"))
    (Throw (ReferenceError "cocoSsd"))
    (Throw (Rejected "detect"))
    (fun _ => "")
    (fun _ => nan)
    (fun _ _ _ => Ok tt).

Definition reply_hanoi : value :=
  VObj [("lat", VNum 21.0285); ("lng", VNum 105.8542);
        ("city", VStr "Hanoi"); ("country", VStr "Vietnam");
        ("confidence", VNum 0.5);
        ("reasoning", VStr "Street signs in Vietnamese.");
        ("visualAnalysisSummary", VStr "A street in the Old Quarter.")].

(** A reply without coordinates. *)
Definition reply_nowhere : value :=
  VObj [("city", VStr "Hanoi"); ("country", VStr "Vietnam");
        ("confidence", VNum 0.5)].

(** A reply outside every range and without confidence. *)
Definition reply_off_the_map : value :=
  VObj [("lat", VNum 200); ("lng", VNum 500); ("city", VStr "Nowhere")].

(** A reply on the equator. *)
Definition reply_equator : value :=
  VObj [("lat", VNum 0); ("lng", VNum (-78.4558));
        ("city", VStr "San Antonio de Pichincha"); ("country", VStr "Ecuador");
        ("confidence", VNum 0.9);
        ("reasoning", VStr "The equator monument.");
        ("visualAnalysisSummary", VStr "Mitad del Mundo.")].

(** A reply the model is unsure of. *)
Definition reply_unsure : value :=
  VObj [("lat", VNum 21.0285); ("lng", VNum 105.8542);
        ("city", VStr "Hanoi"); ("country", VStr "Vietnam");
        ("confidence", VNum 0.2);
        ("reasoning", VStr "Could be many places.");
        ("visualAnalysisSummary", VStr "")].

End Scenario.

(* ------------------------------------------------------------------ *)
(** ** [resetApp] *)

Module Session.
Import JS Browser.



End Session.

(* ------------------------------------------------------------------ *)
(** ** Conditions on a run *)

Module Conditions.
Import JS Browser.




(** The object detector of part_000 loaded and reported one prediction per
    label of [labels]. *)
Definition detected (w : World) (labels : list string) : Prop :=
  cocoSsd_load w = Ok tt
  /\ exists predictions,
       cocoSsd_detect w = Ok (VArr predictions)
       /\ Forall2 (fun p l => get p "class" = Ok (VStr l) /\ l <> "")
            predictions labels.

(** The dataset request succeeded and its body parsed to [dataset]. *)
Definition dataset_is (w : World) (dataset : value) : Prop :=
  exists response,
    fetch w "./dataset.json" VUndef = Ok response
    /\ ok response = true
    /\ body response = Ok dataset.


(** The local variables kept their initial values. *)
Definition defaulted (names : list string) (guess : value) : Prop :=
  get guess "lat" = Ok (VNum 48.8566)
  /\ get guess "lng" = Ok (VNum 2.3522)
  /\ get guess "city" = Ok (VStr "Populated Area")
  /\ get guess "country" = Ok (VStr "Inferred from Objects")
  /\ get guess "reasoning"
     = Ok (VStr ("Local AI detected: " ++ String.concat ", " names
                 ++ ". Scene contains common objects indicating human presence.")).

Definition keeps {A B : Type} (f : Page -> A) (m : M B) : Prop :=
  forall w s, f (page (snd (m w s))) = f (page s).



(** The dataset has [term] as a key of its own, with a truthy entry. *)
Definition keyed (fields : list (string * value)) (term : string) : bool :=
  match assoc term fields with
  | Some entry => truthy entry
  | None => false
  end.

(** [term] is no key of the dataset, and names a member every object
    inherits: [dataset[term]] is then that member, not an entry. *)
Definition inherited_only (fields : list (string * value)) (term : string)
  : bool :=
  match assoc term fields with
  | Some _ => false
  | None => existsb (String.eqb term) object_prototype
  end.

Definition is_classify (e : event) : bool :=
  match e with Classify _ => true | _ => false end.

Definition is_fetch (e : event) : bool :=
  match e with
  | Fetch _ _ => true
  | _ => false
  end.

End Conditions.

(* ------------------------------------------------------------------ *)
(** ** The relay behind [/search.json] *)

(** The Express handlers of src/api/index.js and part_001.  [getJson] of
    the SerpApi client is taken as given: it either calls its callback
    once, with the JSON object of the answer, or never calls it.  What the
    handler passes to [res.json] is kept as a value. *)
Module Relay.
Import JS.

(** [req.query] of a request: each parameter is absent or a string. *)
Record query : Type := mkQuery {
  preference : option string;
  url : option string
}.

Definition params : Type := list (string * value).
Definition document : Type := list (string * value).

Record Service : Type := mkService {
  SERP_AI : option string;
  getJson : params -> option document
}.

(** The calls made to [getJson], in order, and the argument of [res.json]
    when the handler answers. *)
Record outcome : Type := mkOutcome {
  calls : list params;
  sent : option value
}.

Definition param (v : option string) : value :=
  match v with
  | Some s => VStr s
  | None => VUndef
  end.

(** [req.query.preference || ''] in the template literal. *)
Definition preference_or_empty (q : query) : string :=
  match preference q with
  | Some s => s
  | None => ""
  end.

Definition field (doc : document) (k : string) : value :=
  match get (VObj doc) k with
  | Ok v => v
  | Throw _ => VUndef
  end.

(** [lensJson.ai_overview?.page_token] *)
Definition page_token (lensJson : document) : value :=
  match field lensJson "ai_overview" with
  | VUndef | VNull => VUndef
  | overview =>
      match get overview "page_token" with
      | Ok token => token
      | Throw _ => VUndef
      end
  end.

Definition lens_call (question : string) (svc : Service) (q : query)
    (options : params) : params :=
  ([ ("q", VStr (question ++ ",preference=" ++ preference_or_empty q));
     ("engine", VStr "google_lens");
     ("url", param (url q));
     ("api_key", param (SERP_AI svc)) ] ++ options)%list.

Definition overview_call (svc : Service) (token : value) (options : params)
  : params :=
  ([ ("engine", VStr "google_ai_overview");
     ("page_token", token);
     ("api_key", param (SERP_AI svc)) ] ++ options)%list.

(** The second call and the merged answer, shared by the two handlers
    that make it. *)
Definition merge (svc : Service) (first : params) (lensJson : document)
    (options : params) : outcome :=
  let second := overview_call svc (page_token lensJson) options in
  match getJson svc second with
  | None => mkOutcome [first; second] None
  | Some aiResult =>
      mkOutcome [first; second]
        (Some (spread_with (VObj lensJson) "ai_overview"
                 (field aiResult "ai_overview")))
  end.

(** src/api/index.js: the second call is made when the Lens answer carries
    a page token. *)
Definition search (svc : Service) (q : query) : outcome :=
  let first :=
    lens_call "where's this location" svc q [("no_cache", VBool true)] in
  match getJson svc first with
  | None => mkOutcome [first] None
  | Some lensJson =>
      if truthy (page_token lensJson) then
        merge svc first lensJson [("no_cache", VBool true)]
      else mkOutcome [first] (Some (VObj lensJson))
  end.

(** part_001: the second call is made in any case. *)
Definition search_earlier (svc : Service) (q : query) : outcome :=
  let first :=
    lens_call "what is this place" svc q
      [("no_cache", VBool true); ("timeout", VNum 60000)] in
  match getJson svc first with
  | None => mkOutcome [first] None
  | Some lensJson =>
      merge svc first lensJson
        [("no_cache", VBool true); ("timeout", VNum 20000)]
  end.

End Relay.

(* ------------------------------------------------------------------ *)
(** ** Further worlds and pages *)

Module Cases.
Import JS Browser Scenario.




(** The first model fails; the second one answers [reply].  Nothing else
    is reachable, and the page has no [cocoSsd]. *)
Definition second_only (reply : value) : World :=
  mkWorld "imgbb-key" "serp-key"
    (fun _ _ => Throw (Rejected "fetch"))
    (fun model _ _ =>
       if model =? "gemini-2.5-flash" then Ok reply
       else Throw (Rejected "generateContent"))
    (Throw (Rejected "mobilenet.load"))
    (Throw (Rejected "classify"))
    (fun _ _ => Throw (Rejected "Tesseract.recognize"))
    (Throw (ReferenceError "cocoSsd"))
    (Throw (Rejected "detect"))
    (fun _ => "")
    (fun _ => nan)
    (fun _ _ _ => Ok tt).



(** The detector sees [labels]; the dataset cannot be fetched. *)
Definition no_dataset (labels : list string) : World :=
  mkWorld "imgbb-key" "serp-key"
    (fun _ _ => Throw (Rejected "fetch"))
    (fun _ _ _ => Throw (Rejected "generateContent"))
    (Throw (Rejected "mobilenet.load"))
    (Throw (Rejected "classify"))
    (fun _ _ => Throw (Rejected "Tesseract.recognize"))
    (Ok tt)
    (Ok (VArr (map (fun l => VObj [("class", VStr l)]) labels)))
    (fun _ => "")
    (fun _ => nan)
    (fun _ _ _ => Ok tt).

(** The classifier cannot be loaded; the text recognizer answers. *)
Definition classifier_down : World :=
  mkWorld "imgbb-key" "serp-key"
    network
    (fun _ _ _ => Throw (Rejected "generateContent"))
    (Throw (Rejected "mobilenet.load"))
    (Throw (Rejected "classify"))
    (fun _ _ => Ok (VObj [("data", VObj [("text", VStr "Hanoi")])]))
    (Throw (ReferenceError "cocoSsd"))
    (Throw (Rejected "detect"))
    (fun _ => "")
    (fun _ => nan)
    (fun _ _ _ => Ok tt).

(** A page that shows the result of an earlier scan. *)
Definition visited : Page :=
  mkPage "coastal"
    (fun id => if id =? "engineBadge" then "Active Engine: Gemini 3 Flash"
               else "")
    (fun _ => "")
    (fun id => if id =? "emptyState" then ["hidden"] else [])
    [ Marker (VNum 13.4125) (VNum 103.867);
      Circle (VNum 13.4125) (VNum 103.867) "#3388ff" "#3388ff" 0.2 500 ]
    (Some (VNum 13.4125, VNum 103.867, 15%float)).

(** A Lens answer with a page token, and the overview it leads to. *)
Definition lens_answer : Relay.document :=
  [ ("visual_matches", VArr [VObj [("title", VStr "Old Quarter")]]);
    ("ai_overview", VObj [("page_token", VStr "tok-1")]) ].

Definition overview_answer : Relay.document :=
  [ ("ai_overview",
     VObj [("references",
            VArr [VObj [("snippet", VStr "Hoan Kiem Lake")]])]) ].

(** SerpApi answers Lens requests with [lens], overview requests with
    [overview_answer]. *)
Definition serp (lens : Relay.document) : Relay.Service :=
  Relay.mkService (Some "serp-key")
    (fun ps =>
       match assoc "engine" ps with
       | Some (VStr "google_lens") => Some lens
       | Some (VStr "google_ai_overview") => Some overview_answer
       | _ => None
       end).

Definition asked : Relay.query :=
  Relay.mkQuery (Some "coastal") (Some "https://i.ibb.co/x.jpg").

End Cases.

(* ------------------------------------------------------------------ *)
(** ** Reasoning about runs *)

Module Facts.
Import JS Browser Common Spec.

Lemma forallb_app_true {A : Type} (P : A -> bool) (xs ys : list A) :
  forallb P xs = true -> forallb P ys = true -> forallb P (xs ++ ys) = true.
Proof.
  intros Hx Hy. rewrite forallb_app, Hx, Hy. reflexivity.
Qed.

Lemma existsb_forallb_negb {A : Type} (P : A -> bool) (xs : list A) :
  forallb (fun x => negb (P x)) xs = true -> existsb P xs = false.
Proof.
  induction xs as [|x xs IH]; simpl; [reflexivity|].
  intros H. apply andb_true_iff in H as [Hx Hxs].
  apply negb_true_iff in Hx. rewrite Hx, (IH Hxs). reflexivity.
Qed.

Section Emits.

Variable P : event -> bool.

Lemma emits_silent {A : Type} (m : M A) :
  (forall w s, trace (snd (m w s)) = trace s) -> emits P m.
Proof.
  intros H w s. exists []. rewrite H, app_nil_r. split; reflexivity.
Qed.

Lemma emits_ret {A : Type} (a : A) : emits P (ret a).
Proof. apply emits_silent. reflexivity. Qed.

Lemma emits_throw {A : Type} (e : exn) : emits P (@throw A e).
Proof. apply emits_silent. reflexivity. Qed.

Lemma emits_lift {A : Type} (r : result A) : emits P (lift r).
Proof. apply emits_silent. reflexivity. Qed.

Lemma emits_ask {A : Type} (f : World -> A) : emits P (ask f).
Proof. apply emits_silent. reflexivity. Qed.

Lemma emits_read {A : Type} (f : Page -> A) : emits P (read f).
Proof. apply emits_silent. reflexivity. Qed.

Lemma emits_update (f : Page -> Page) : emits P (update f).
Proof. apply emits_silent. reflexivity. Qed.

Lemma emits_set_text (id : string) (v : value) : emits P (set_text id v).
Proof. apply emits_silent. reflexivity. Qed.

Lemma emits_emit (e : event) : P e = true -> emits P (emit e).
Proof.
  intros He w s. exists [e]. simpl. rewrite He. split; reflexivity.
Qed.

Lemma emits_bind {A B : Type} (m : M A) (k : A -> M B) :
  emits P m -> (forall a, emits P (k a)) -> emits P (bind m k).
Proof.
  intros Hm Hk w s. unfold bind.
  destruct (Hm w s) as [new1 [E1 F1]].
  destruct (m w s) as [[a|e] s1]; simpl in *.
  - destruct (Hk a w s1) as [new2 [E2 F2]].
    exists (new1 ++ new2)%list. rewrite E2, E1, app_assoc.
    split; [reflexivity | apply forallb_app_true; assumption].
  - exists new1. split; assumption.
Qed.

Lemma emits_try_catch {A : Type} (m : M A) (h : exn -> M A) :
  emits P m -> (forall e, emits P (h e)) -> emits P (try_catch m h).
Proof.
  intros Hm Hh w s. unfold try_catch.
  destruct (Hm w s) as [new1 [E1 F1]].
  destruct (m w s) as [[a|e] s1]; simpl in *.
  - exists new1. split; assumption.
  - destruct (Hh e w s1) as [new2 [E2 F2]].
    exists (new1 ++ new2)%list. rewrite E2, E1, app_assoc.
    split; [reflexivity | apply forallb_app_true; assumption].
Qed.

Lemma emits_mapM {A B : Type} (f : A -> M B) (xs : list A) :
  (forall x, emits P (f x)) -> emits P (mapM f xs).
Proof.
  intros Hf. induction xs as [|x xs IH]; simpl.
  - apply emits_ret.
  - apply emits_bind; [apply Hf | intros y].
    apply emits_bind; [apply IH | intros ys]. apply emits_ret.
Qed.

Lemma emits_array_map {B : Type} (v : value) (f : value -> M B) :
  (forall x, emits P (f x)) -> emits P (array_map v f).
Proof.
  intros Hf. destruct v; simpl; try apply emits_throw.
  apply emits_mapM, Hf.
Qed.

Lemma emits_prop (v : value) (k : string) : emits P (prop v k).
Proof. apply emits_lift. Qed.

Lemma emits_prop_opt (v : value) (k : string) : emits P (prop_opt v k).
Proof. destruct v; simpl; first [apply emits_ret | apply emits_lift]. Qed.

Lemma emits_ident (sc : scope) (x : string) : emits P (ident sc x).
Proof.
  unfold ident. destruct (assoc x sc); [apply emits_ret | apply emits_throw].
Qed.

Lemma emits_accept (parsed : value) (source : string) :
  emits P (accept parsed source).
Proof.
  unfold accept. apply emits_bind; [apply emits_prop | intros lat].
  destruct (truthy lat); [| apply emits_ret].
  apply emits_bind; [apply emits_prop | intros lng].
  destruct (truthy lng); apply emits_ret.
Qed.

End Emits.

(** One step of a proof that a computation emits only [P]-events. *)
Ltac emits_step :=
  lazymatch goal with
  | |- emits _ (bind _ _) => apply emits_bind; [| intros ?]
  | |- emits _ (try_catch _ _) => apply emits_try_catch; [| intros ?]
  | |- emits _ (ret _) => apply emits_ret
  | |- emits _ (throw _) => apply emits_throw
  | |- emits _ (lift _) => apply emits_lift
  | |- emits _ (ask _) => apply emits_ask
  | |- emits _ (read _) => apply emits_read
  | |- emits _ (update _) => apply emits_update
  | |- emits _ (set_text _ _) => apply emits_set_text
  | |- emits _ (emit _) => apply emits_emit; reflexivity
  | |- emits _ (prop _ _) => apply emits_prop
  | |- emits _ (prop_opt _ _) => apply emits_prop_opt
  | |- emits _ (ident _ _) => apply emits_ident
  | |- emits _ (accept _ _) => apply emits_accept
  | |- emits _ (array_map _ _) => apply emits_array_map; intros ?
  | |- emits _ (if ?b then _ else _) => destruct b
  | |- emits _ (match ?x with _ => _ end) => destruct x
  | |- emits _ ?m => let h := head m in unfold h
  end
with head t :=
  lazymatch t with
  | ?f _ => head f
  | _ => t
  end.

Ltac emits_all := repeat emits_step.

Section Safe.

Lemma safe_ret {A : Type} (a : A) : safe (ret a).
Proof. intros w s. reflexivity. Qed.

Lemma safe_emit (e : event) : safe (emit e).
Proof. intros w s. reflexivity. Qed.

Lemma safe_bind {A B : Type} (m : M A) (k : A -> M B) :
  safe m -> (forall a, safe (k a)) -> safe (bind m k).
Proof.
  intros Hm Hk w s. unfold bind. specialize (Hm w s).
  destruct (m w s) as [[a|e] s1]; simpl in *; [apply Hk | discriminate].
Qed.

Lemma safe_try_catch {A : Type} (m : M A) (h : exn -> M A) :
  (forall e, safe (h e)) -> safe (try_catch m h).
Proof.
  intros Hh w s. unfold try_catch.
  destruct (m w s) as [[a|e] s1]; simpl; [reflexivity | apply Hh].
Qed.

Lemma safe_warn_none {A : Type} (msg : string) (e : exn) :
  safe (console_warn msg e ;; ret (@None A)).
Proof. intros w s. reflexivity. Qed.

End Safe.

End Facts.

(* ------------------------------------------------------------------ *)
(** ** The remote phase of [identifyLocation] *)

Import JS Browser Common Spec Facts.

Lemma bind_inv {A B : Type} (m : M A) (k : A -> M B) w s b s' :
  bind m k w s = (Ok b, s') ->
  exists a s1, m w s = (Ok a, s1) /\ k a w s1 = (Ok b, s').
Proof.
  unfold bind. destruct (m w s) as [[a|e] s1]; intros H.
  - exists a, s1. split; [reflexivity | exact H].
  - discriminate.
Qed.

Lemma try_catch_inv {A : Type} (m : M A) (h : exn -> M A) w s r s' :
  try_catch m h w s = (r, s') ->
  (exists a, r = Ok a /\ m w s = (Ok a, s'))
  \/ (exists e s1, m w s = (Throw e, s1) /\ h e w s1 = (r, s')).
Proof.
  unfold try_catch. destruct (m w s) as [[a|e] s1]; intros H.
  - left. exists a. inversion H; subst. split; reflexivity.
  - right. exists e, s1. split; [reflexivity | exact H].
Qed.

Lemma assoc_set_field (k : string) (x : value) (fs : list (string * value)) :
  assoc k (set_field k x fs) = Some x.
Proof.
  induction fs as [|[k' v] fs IH]; simpl.
  - rewrite String.eqb_refl. reflexivity.
  - destruct (k =? k') eqn:E; simpl.
    + rewrite String.eqb_refl. reflexivity.
    + rewrite E. exact IH.
Qed.

Lemma get_spread_with (v : value) (k : string) (x : value) :
  get (spread_with v k x) k = Ok x.
Proof. unfold spread_with, get. rewrite assoc_set_field. reflexivity. Qed.

(** What [accept] does, case by case. *)
Lemma accept_truthy parsed source lat lng w s :
  get parsed "lat" = Ok lat -> truthy lat = true ->
  get parsed "lng" = Ok lng -> truthy lng = true ->
  accept parsed source w s
  = (Ok (Some (spread_with parsed "source" (VStr source))), s).
Proof.
  intros Hlat Tlat Hlng Tlng. unfold accept, bind, prop, lift.
  rewrite Hlat, Tlat, Hlng, Tlng. reflexivity.
Qed.

Lemma accept_absent parsed source w s :
  absent parsed "lat" || absent parsed "lng" = true ->
  accept parsed source w s = (Ok None, s).
Proof.
  unfold absent, accept, bind, prop, lift. intros H.
  destruct (get parsed "lat") as [lat|e] eqn:Hlat.
  - destruct (truthy lat) eqn:Tlat; [| reflexivity].
    destruct (get parsed "lng") as [lng|e] eqn:Hlng.
    + destruct (truthy lng) eqn:Tlng; [| reflexivity].
      destruct lat, lng; simpl in *; discriminate.
    + destruct parsed; simpl in *; try discriminate.
      destruct (assoc "lng" fields); discriminate.
  - destruct parsed; simpl in *; try discriminate.
    destruct (assoc "lat" fields); discriminate.
Qed.

Lemma accept_some_inv parsed source w s guess s' :
  accept parsed source w s = (Ok (Some guess), s') ->
  guess = spread_with parsed "source" (VStr source) /\ s' = s.
Proof.
  unfold accept, bind, prop, lift.
  destruct (get parsed "lat") as [lat|e]; [| discriminate].
  destruct (truthy lat); [| discriminate].
  destruct (get parsed "lng") as [lng|e]; [| discriminate].
  destruct (truthy lng); [| discriminate].
  intros H. inversion H. split; reflexivity.
Qed.

(** The secondary attempt of src/index.js: [serpResponse] is not in its
    scope, so building the prompt throws before any request is made. *)
Lemma secondary_throws img file w s :
  IndexJs.secondary img file w s
  = (Ok None,
     mkState (page s)
       (trace s ++ [ConsoleWarn "Secondary AI failed"
                      (Some (ReferenceError "serpResponse"))])).
Proof. reflexivity. Qed.

Lemma Vision_emits (P : event -> bool) img :
  (forall args, P (ConsoleLog args) = true) ->
  (forall url payload, P (Fetch url payload) = true) ->
  emits P (IndexJs.Vision img).
Proof.
  intros Hlog Hfetch. unfold IndexJs.Vision, do_fetch, console_log, json,
    ToString, join.
  repeat first
    [ apply emits_emit; first [apply Hlog | apply Hfetch]
    | emits_step ].
Qed.

Lemma primary_emits (P : event -> bool) img file :
  (forall args, P (ConsoleLog args) = true) ->
  (forall url payload, P (Fetch url payload) = true) ->
  (forall msg e, P (ConsoleWarn msg e) = true) ->
  (forall image text, P (Generate "gemini-3-flash-preview" image text) = true) ->
  emits P (IndexJs.primary img file).
Proof.
  intros Hlog Hfetch Hwarn Hgen. unfold IndexJs.primary.
  apply emits_try_catch.
  - apply emits_bind; [apply Vision_emits; assumption | intros hints].
    unfold console_log, IndexJs.prompt, generate, ToString.
    repeat first
      [ apply emits_emit; first [apply Hlog | apply Hgen]
      | emits_step ].
  - intros e. unfold console_warn.
    apply emits_bind; [apply emits_emit, Hwarn | intros _; apply emits_ret].
Qed.

Lemma primary_safe img file : safe (IndexJs.primary img file).
Proof.
  unfold IndexJs.primary. apply safe_try_catch. intros e.
  apply safe_warn_none.
Qed.

Lemma primary_some_inv img file w s guess s' :
  IndexJs.primary img file w s = (Ok (Some guess), s') ->
  exists parsed, guess = spread_with parsed "source" (VStr "Gemini 3 Flash").
Proof.
  unfold IndexJs.primary. intros H.
  apply try_catch_inv in H as [[a [Ea H]] | [e [s1 [_ H]]]].
  - injection Ea as <-.
    do 5 (apply bind_inv in H as [? [? [_ H]]]).
    apply accept_some_inv in H as [-> _]. eexists. reflexivity.
  - discriminate H.
Qed.

(** [identifyLocation] of src/index.js in terms of its first attempt. *)
Lemma IndexJs_identifyLocation_run img file w s :
  IndexJs.identifyLocation img file w s
  = match IndexJs.primary img file w s with
    | (Ok (Some guess), s1) => (Ok guess, s1)
    | (Ok None, s1) =>
        (Ok VUndef,
         mkState (page s1)
           (trace s1 ++ [ConsoleWarn "Secondary AI failed"
                           (Some (ReferenceError "serpResponse"))]))
    | (Throw e, s1) => (Throw e, s1)
    end.
Proof.
  unfold IndexJs.identifyLocation, bind.
  destruct (IndexJs.primary img file w s) as [[[guess|]|e] s1];
    try reflexivity.
Qed.

(** C9. In src/index.js the secondary attempt reads [serpResponse], which
    only the block of the first attempt declares: it throws a
    ReferenceError before issuing its request, on every input.  No run
    requests the secondary model, and a run returns either [undefined] or
    a guess stamped 'Gemini 3 Flash', never 'Gemini 2.5 Flash'. *)
Theorem secondary_attempt_never_requests :
  forall img file w p,
    let out := run (IndexJs.identifyLocation img file) w p in
    (forall s,
       IndexJs.secondary img file w s
       = (Ok None,
          mkState (page s)
            (trace s ++ [ConsoleWarn "Secondary AI failed"
                           (Some (ReferenceError "serpResponse"))])))
    /\ requested "gemini-2.5-flash-lite" (trace (snd out)) = false
    /\ (fst out = Ok VUndef
        \/ exists guess,
             fst out = Ok guess
             /\ get guess "source" = Ok (VStr "Gemini 3 Flash")).
Proof.
  intros img file w p out. split; [intros s; apply secondary_throws |].
  subst out. unfold run. rewrite IndexJs_identifyLocation_run.
  pose proof (primary_emits
                (fun e => negb (is_request "gemini-2.5-flash-lite" e))
                img file) as Hem.
  destruct (Hem (fun _ => eq_refl) (fun _ _ => eq_refl)
                (fun _ _ => eq_refl) (fun _ _ => eq_refl)
                w (mkState p [])) as [new [Etr Hnew]].
  pose proof (primary_safe img file w (mkState p [])) as Hsafe.
  destruct (IndexJs.primary img file w (mkState p []))
    as [[[guess|]|e] s1] eqn:Hprim; simpl in *; try discriminate.
  - split.
    + rewrite Etr. apply existsb_forallb_negb. exact Hnew.
    + right. apply primary_some_inv in Hprim as [parsed ->].
      eexists. split; [reflexivity | apply get_spread_with].
  - split.
    + rewrite Etr. unfold requested. rewrite existsb_app.
      rewrite (existsb_forallb_negb _ _ Hnew). reflexivity.
    + left. reflexivity.
Qed.

Lemma generate_inv model img text w s v s' :
  generate model img text w s = (Ok v, s') ->
  generateContent w model (split_comma_1 img) text = Ok v.
Proof.
  unfold generate, bind, emit, ask, lift. simpl.
  destruct (generateContent w model (split_comma_1 img) text); intros H;
    inversion H; reflexivity.
Qed.

Lemma attempt_reply model source img file w s parsed :
  (forall image text, generateContent w model image text = Ok parsed) ->
  exists text,
    Part000.attempt model source img file w s
    = accept parsed source w
        (mkState (page s)
           (trace s ++ [Generate model (split_comma_1 img) text])).
Proof.
  intros H. eexists. unfold Part000.attempt, bind, read, Part000.prompt, generate, bind, emit, ask, lift.
  simpl. rewrite H. reflexivity.
Qed.

Lemma primary_after_hints img file w s hints s1 parsed :
  IndexJs.Vision img w s = (Ok hints, s1) ->
  (forall image text, generateContent w "gemini-3-flash-preview" image text = Ok parsed) ->
  exists text,
    IndexJs.primary img file w s
    = try_catch (accept parsed "Gemini 3 Flash")
        (fun e => console_warn "AI Analysis failed, trying other models" e ;; ret None)
        w (mkState (page s1)
             (trace s1 ++ [ConsoleLog [VStr "Serp Response:"; VStr hints];
                           Generate "gemini-3-flash-preview" (split_comma_1 img) text])).
Proof.
  intros HV H. eexists. unfold IndexJs.primary, try_catch at 1, bind at 1. 
  rewrite HV. unfold IndexJs.prompt, generate, bind, read, emit, ask, lift, console_log, emit. simpl.
  rewrite H. unfold try_catch. rewrite <- app_assoc. simpl. reflexivity.
Qed.

Lemma primary_after_failed_hints img file w s e s1 :
  IndexJs.Vision img w s = (Throw e, s1) ->
  IndexJs.primary img file w s
  = (Ok None,
     mkState (page s1)
       (trace s1 ++ [ConsoleWarn "AI Analysis failed, trying other models"
                       (Some e)])).
Proof.
  intros HV. unfold IndexJs.primary, try_catch, bind. rewrite HV. reflexivity.
Qed.

(** A reply that lacks a coordinate never comes out of the first attempt. *)
Lemma primary_absent img file w s parsed :
  (forall image text,
     generateContent w "gemini-3-flash-preview" image text = Ok parsed) ->
  absent parsed "lat" || absent parsed "lng" = true ->
  exists s1, IndexJs.primary img file w s = (Ok None, s1).
Proof.
  intros H Habs.
  destruct (IndexJs.Vision img w s) as [[hints|e] s1] eqn:HV.
  - destruct (primary_after_hints _ file _ _ _ _ _ HV H) as [text ->].
    unfold try_catch. rewrite accept_absent by exact Habs.
    eexists. reflexivity.
  - rewrite (primary_after_failed_hints _ file _ _ _ _ HV).
    eexists. reflexivity.
Qed.

Lemma find_object_emits (P : event -> bool) dataset objects :
  emits P (Part000.find_object dataset objects).
Proof.
  induction objects as [|obj rest IH]; simpl.
  - apply emits_ret.
  - unfold ToString. emits_step. { emits_step. }
    emits_step. { emits_step. }
    destruct (truthy a0); [apply emits_ret | exact IH].
Qed.

Lemma Part000_local_engine_emits (P : event -> bool) node :
  (forall e, P e = true) ->
  emits P (Part000.runLocalObjectAnalysis node).
Proof.
  intros HP. unfold Part000.runLocalObjectAnalysis, Part000.match_dataset,
    Part000.take, Part000.keys, do_fetch, console_log, console_warn,
    console_warn_1, json, ToString, join.
  repeat first
    [ apply emits_emit, HP
    | apply find_object_emits
    | emits_step ].
Qed.


(** The local phase only adds to the trace. *)
Lemma Part000_local_run w s :
  exists rest,
    trace (snd (Part000.local w s)) = (trace s ++ rest)%list.
Proof.
  assert (H : emits (fun _ => true) Part000.local).
  { unfold Part000.local, console_warn.
    repeat first
      [ apply emits_emit; reflexivity
      | apply Part000_local_engine_emits; reflexivity
      | emits_step ]. }
  destruct (H w s) as [rest [E _]]. exists rest. exact E.
Qed.

Lemma Part000_remote_safe img file : safe (Part000.remote img file).
Proof.
  unfold Part000.remote. apply safe_try_catch. intros e.
  apply safe_bind; [apply safe_emit | intros _].
  apply safe_try_catch. intros err. apply safe_warn_none.
Qed.

Lemma Part000_local_safe : safe Part000.local.
Proof.
  unfold Part000.local. apply safe_try_catch. intros e. apply safe_warn_none.
Qed.

Lemma Part000_identifyLocation_safe img file :
  safe (Part000.identifyLocation img file).
Proof.
  unfold Part000.identifyLocation.
  apply safe_bind; [apply Part000_remote_safe | intros [guess|]].
  - apply safe_ret.
  - apply safe_bind; [apply Part000_local_safe | intros [data|]];
      apply safe_ret.
Qed.

Lemma IndexJs_identifyLocation_safe img file :
  safe (IndexJs.identifyLocation img file).
Proof.
  intros w s. rewrite IndexJs_identifyLocation_run.
  pose proof (primary_safe img file w s) as H.
  destruct (IndexJs.primary img file w s) as [[[guess|]|e] s1];
    simpl in *; [reflexivity | reflexivity | discriminate].
Qed.

Lemma Part000_remote_reply img file w s parsed :
  (forall image text,
     generateContent w "gemini-3-flash-preview" image text = Ok parsed) ->
  exists text,
    Part000.remote img file w s
    = try_catch (accept parsed "Gemini-3-Flash AI")
        (fun e =>
           console_warn "AI Analysis failed, trying other models" e ;;
           try_catch
             (Part000.attempt "gemini-2.5-flash" "Gemini-2.5-Flash AI" img file)
             (fun err => console_warn "Secondary AI failed" err ;; ret None))
        w (mkState (page s)
             (trace s ++ [Generate "gemini-3-flash-preview"
                            (split_comma_1 img) text])).
Proof.
  intros H.
  destruct (attempt_reply "gemini-3-flash-preview" "Gemini-3-Flash AI"
              img file w s parsed H) as [text E].
  exists text. unfold Part000.remote, try_catch. rewrite E. reflexivity.
Qed.

Import Scenario.

(** C1, as stated, fails: a reply with latitude 200, longitude 500 and no
    confidence is structurally invalid, and it is the selected result. *)
Lemma off_the_map_reply_is_selected :
  structurally_valid reply_off_the_map = false
  /\ fst (run (IndexJs.identifyLocation img VUndef)
            (online reply_off_the_map [] "") blank)
     = Ok (spread_with reply_off_the_map "source" (VStr "Gemini 3 Flash"))
  /\ fst (run (Part000.identifyLocation img VUndef)
            (online reply_off_the_map [] "") blank)
     = Ok (spread_with reply_off_the_map "source" (VStr "Gemini-3-Flash AI")).
Proof. repeat split; vm_compute; reflexivity. Qed.

(** Where the claim holds: a first reply with truthy coordinates ends the
    run right after the request that produced it. *)
Lemma accepted_first_reply_ends_run img file w p parsed lat lng :
  (forall image text,
     generateContent w "gemini-3-flash-preview" image text = Ok parsed) ->
  get parsed "lat" = Ok lat -> truthy lat = true ->
  get parsed "lng" = Ok lng -> truthy lng = true ->
  (exists text,
     run (Part000.identifyLocation img file) w p
     = (Ok (spread_with parsed "source" (VStr "Gemini-3-Flash AI")),
        mkState p [Generate "gemini-3-flash-preview" (split_comma_1 img) text]))
  /\ (forall hints s1,
        IndexJs.Vision img w (mkState p []) = (Ok hints, s1) ->
        exists text,
          run (IndexJs.identifyLocation img file) w p
          = (Ok (spread_with parsed "source" (VStr "Gemini 3 Flash")),
             mkState (page s1)
               (trace s1
                ++ [ConsoleLog [VStr "Serp Response:"; VStr hints];
                    Generate "gemini-3-flash-preview" (split_comma_1 img)
                      text])%list)).
Proof.
  intros H Hlat Tlat Hlng Tlng. unfold run. split.
  - destruct (Part000_remote_reply img file w (mkState p []) parsed H)
      as [text E].
    exists text. unfold Part000.identifyLocation, bind at 1. rewrite E.
    unfold try_catch. rewrite (accept_truthy _ _ lat lng) by assumption.
    reflexivity.
  - intros hints s1 EV. rewrite IndexJs_identifyLocation_run.
    destruct (primary_after_hints img file w _ hints s1 parsed EV H)
      as [text ->].
    exists text. unfold try_catch.
    rewrite (accept_truthy _ _ lat lng) by assumption. reflexivity.
Qed.

(** C3, at the input where the code departs from it.  The first engine
    replies with a structurally valid guess on the equator ([lat] is 0).
    The test [parsed.lat && parsed.lng] takes the zero for a missing
    coordinate: src/index.js discards the guess, starts its secondary
    attempt and returns [undefined]; part_000 discards it and runs the
    local engine, whose guess it returns. *)
Theorem equator_reply_is_discarded :
  let out := run (IndexJs.identifyLocation img VUndef)
               (online reply_equator [] "") blank in
  let old := run (Part000.identifyLocation img VUndef)
               (online reply_equator ["person"] "") blank in
  structurally_valid reply_equator = true
  /\ requested "gemini-3-flash-preview" (trace (snd out)) = true
  /\ fst out = Ok VUndef
  /\ last (trace (snd out)) (ConsoleLog [])
     = ConsoleWarn "Secondary AI failed" (Some (ReferenceError "serpResponse"))
  /\ requested "gemini-3-flash-preview" (trace (snd old)) = true
  /\ ran_local (trace (snd old)) = true
  /\ match fst old with
     | Ok guess => get guess "source"
     | Throw e => Throw e
     end = Ok (VStr "Fallback: Local TensorFlow.js").
Proof. repeat split; vm_compute; reflexivity. Qed.

Ltac monad :=
  cbv beta iota zeta delta
    [bind ret throw try_catch lift ask emit read update prop prop_opt json
     do_fetch console_log console_warn console_warn_1 console_error
     ToString ToNumber set_text set_color fly];
  cbn [fst snd page trace].

Ltac monad_in H :=
  cbv beta iota zeta delta
    [bind ret throw try_catch lift ask emit read update prop prop_opt json
     do_fetch console_log console_warn console_warn_1 console_error
     ToString ToNumber set_text set_color fly] in H;
  cbn [fst snd page trace] in H.


Lemma absent_get parsed k :
  absent parsed k = true -> get parsed k = Ok VUndef \/ get parsed k = Ok VNull.
Proof.
  unfold absent. destruct (get parsed k) as [v|e]; [| discriminate].
  destruct v; simpl; try discriminate; auto.
Qed.

(** C5 (amended). [Vision] has no error handling: a rejected upload, an
    unreadable upload response, an upload response without [data], a
    rejected relay request, an unreadable relay response, and a relay
    response with neither [ai_overview] nor [visual_matches] each make it
    throw.  The call sits in the [try] block of the first attempt, so the
    error is caught there: [identifyLocation] still returns, but the first
    remote engine is not requested in that run. *)
Theorem hint_failure_is_caught_with_first_attempt :
  forall img file w p,
    let upload := "https://api.imgbb.com/1/upload?key=" ++ VITE_IMG_BB w in
    let relay := fun u =>
      "/search.json?engine=google_lens&url=" ++ to_string w u
      ++ "&api_key=" ++ SERP_AI w ++ "&preference=" ++ prefer_value p in
    let hints := fst (run (IndexJs.Vision img) w p) in
    let out := run (IndexJs.identifyLocation img file) w p in
    (forall e, fetch w upload (split_comma_1 img) = Throw e -> hints = Throw e)
    /\ (forall r,
          fetch w upload (split_comma_1 img) = Ok r ->
          (forall e, body r = Throw e -> hints = Throw e)
          /\ (forall v, body r = Ok v -> absent v "data" = true ->
                hints = Throw (TypeError "url"))
          /\ (forall v d u,
                body r = Ok v -> get v "data" = Ok d -> get d "url" = Ok u ->
                (forall e, fetch w (relay u) VUndef = Throw e -> hints = Throw e)
                /\ (forall r2,
                      fetch w (relay u) VUndef = Ok r2 ->
                      (forall e, body r2 = Throw e -> hints = Throw e)
                      /\ (forall found,
                            body r2 = Ok found ->
                            absent found "ai_overview" = true ->
                            absent found "visual_matches" = true ->
                            hints = Throw (TypeError "map")))))
    /\ (forall e, hints = Throw e ->
          fst out = Ok VUndef
          /\ requested "gemini-3-flash-preview" (trace (snd out)) = false
          /\ exists tr,
               trace (snd out)
               = (tr ++ [ConsoleWarn "AI Analysis failed, trying other models"
                           (Some e);
                         ConsoleWarn "Secondary AI failed"
                           (Some (ReferenceError "serpResponse"))])%list).
Proof.
  intros img file w p upload relay hints out.
  subst upload relay hints out. unfold run.
  split; [| split].
  - intros e H. unfold IndexJs.Vision. monad. rewrite H. reflexivity.
  - intros r Hr. split; [| split].
    + intros e Hb. unfold IndexJs.Vision. monad. rewrite Hr. monad.
      rewrite Hb. reflexivity.
    + intros v Hb Habs. unfold IndexJs.Vision. monad. rewrite Hr. monad.
      rewrite Hb.
      destruct (absent_get _ _ Habs) as [-> | ->]; reflexivity.
    + intros v d u Hb Hd Hu. split.
      * intros e Hf. unfold IndexJs.Vision. monad. rewrite Hr. monad.
        rewrite Hb, Hd. monad. rewrite Hu. monad. rewrite Hf. reflexivity.
      * intros r2 Hf. split.
        -- intros e Hb2. unfold IndexJs.Vision. monad. rewrite Hr. monad.
           rewrite Hb, Hd. monad. rewrite Hu. monad. rewrite Hf. monad.
           rewrite Hb2. reflexivity.
        -- intros found Hb2 Ha Hm. unfold IndexJs.Vision. monad.
           rewrite Hr. monad. rewrite Hb, Hd. monad. rewrite Hu. monad.
           rewrite Hf. monad. rewrite Hb2.
           destruct (absent_get _ _ Ha) as [-> | ->];
             destruct (absent_get _ _ Hm) as [-> | ->]; reflexivity.
  - intros e He. rewrite IndexJs_identifyLocation_run.
    pose proof (Vision_emits
                  (fun ev => negb (is_request "gemini-3-flash-preview" ev))
                  img (fun _ => eq_refl) (fun _ _ => eq_refl)
                  w (mkState p [])) as [new [Etr Hnew]].
    destruct (IndexJs.Vision img w (mkState p [])) as [[h|e'] s1] eqn:EV;
      simpl in He; [discriminate |]. injection He as ->.
    rewrite (primary_after_failed_hints img file w _ e s1 EV). simpl in *.
    split; [reflexivity |]. split.
    + unfold requested. rewrite <- app_assoc, existsb_app, Etr.
      simpl. rewrite (existsb_forallb_negb _ _ Hnew). reflexivity.
    + exists (trace s1). rewrite <- app_assoc. reflexivity.
Qed.

Lemma hint_failure_witness :
  fst (run (IndexJs.Vision img) (upload_down reply_hanoi) blank)
  = Throw (Rejected "fetch")
  /\ requested "gemini-3-flash-preview"
       (trace (snd (run (IndexJs.identifyLocation img VUndef)
                      (upload_down reply_hanoi) blank)))
     = false.
Proof.
  split; [reflexivity |].
  exact (proj1 (proj2 (proj2 (proj2
           (hint_failure_is_caught_with_first_attempt img VUndef
              (upload_down reply_hanoi) blank)) (Rejected "fetch") eq_refl))).
Defined.

(** C5, as stated, fails: when the upload is rejected [Vision] throws
    instead of returning a string, and the run ends without a request to
    the first engine, which would have answered. *)
Lemma failed_upload_blocks_first_engine :
  fst (run (IndexJs.Vision img) (upload_down reply_hanoi) blank)
  = Throw (Rejected "fetch")
  /\ fst (run (IndexJs.identifyLocation img VUndef)
            (upload_down reply_hanoi) blank)
     = Ok VUndef
  /\ trace (snd (run (IndexJs.identifyLocation img VUndef)
                   (upload_down reply_hanoi) blank))
     = [ ConsoleLog [VStr "Initiating ImgBB upload..."];
         Fetch "https://api.imgbb.com/1/upload?key=imgbb-key" (VStr "AAAA");
         ConsoleWarn "AI Analysis failed, trying other models"
           (Some (Rejected "fetch"));
         ConsoleWarn "Secondary AI failed"
           (Some (ReferenceError "serpResponse")) ].
Proof. repeat split; vm_compute; reflexivity. Qed.

(** The handler of [handleFileSelect] ends in the failure state as soon as
    [identifyLocation] hands [undefined] to [renderResults]. *)
Lemma undefined_result_fails_the_scan T identify img w p :
  (forall s, fst (identify img w s) = Ok VUndef) ->
  let shown :=
    page (snd (run (Common.handleFileSelect identify (renderResults_at T) img)
                 w p)) in
  text shown "statusMessage" = "All Scans Failed, Location Not Found"
  /\ color shown "statusMessage" = "#d93025".
Proof.
  intros H shown. subst shown.
  unfold run, Common.handleFileSelect, classList_add, classList_remove.
  monad.
  match goal with
  | |- context [identify img w ?s0] =>
      specialize (H s0); destruct (identify img w s0) as [[v|e] s1]
  end; simpl in H; [| discriminate]. injection H as ->.
  unfold renderResults_at. monad. simpl. split; reflexivity.
Qed.

Lemma Part000_local_default_valid node w s guess s' :
  dataset_unavailable w = true ->
  Part000.runLocalObjectAnalysis node w s = (Ok guess, s') ->
  structurally_valid guess = true.
Proof.
  unfold dataset_unavailable. intros Hf H.
  unfold Part000.runLocalObjectAnalysis in H.
  do 7 (apply bind_inv in H as [? [? [_ H]]]).
  apply bind_inv in H as [predictions [? [_ H]]].
  destruct (negb (truthy predictions) || Part000.length_is_zero predictions);
    [discriminate H |].
  apply bind_inv in H as [objects [? [_ H]]].
  apply bind_inv in H as [listed [? [_ H]]].
  apply bind_inv in H as [vars [? [Hv H]]].
  apply bind_inv in H as [listed2 [? [_ H]]].
  unfold Part000.match_dataset in Hv. monad_in Hv.
  destruct (fetch w "./dataset.json" VUndef) as [response|e].
  - monad_in Hv. destruct (ok response).
    + monad_in Hv. destruct (body response) as [dataset|e];
        [discriminate Hf |].
      injection Hv as <- _. injection H as <- _. reflexivity.
    + injection Hv as <- _. injection H as <- _. reflexivity.
  - injection Hv as <- _. injection H as <- _. reflexivity.
Qed.

Lemma IndexJs_never_runs_local img file w p :
  ran_local (trace (snd (run (IndexJs.identifyLocation img file) w p))) = false.
Proof.
  unfold run. rewrite IndexJs_identifyLocation_run.
  destruct (primary_emits (fun e => negb (is_local e)) img file
              (fun _ => eq_refl) (fun _ _ => eq_refl)
              (fun _ _ => eq_refl) (fun _ _ => eq_refl)
              w (mkState p [])) as [new [Etr Hnew]].
  unfold ran_local.
  destruct (IndexJs.primary img file w (mkState p []))
    as [[[guess|]|e] s1]; simpl in *; rewrite Etr;
    try rewrite existsb_app; rewrite (existsb_forallb_negb _ _ Hnew);
    reflexivity.
Qed.

(** C2 (amended). [identifyLocation] never raises, in either variant:
    every failure, that of the local engine included, is caught and logged.
    In part_000, when the remote phase yields no guess the local engine is
    run and its result is returned as it is; when the local engine raises,
    [identifyLocation] returns [undefined].  The guess the local engine
    returns when the dataset cannot be loaded is structurally valid.  The
    failure state 'All Scans Failed, Location Not Found' is reached in
    [handleFileSelect], from the error [renderResults] raises on
    [undefined]. *)
Theorem exhausted_engines_return_undefined :
  forall img file w p,
    let out := run (IndexJs.identifyLocation img file) w p in
    let old := run (Part000.identifyLocation img file) w p in
    returned (fst out) = true
    /\ returned (fst old) = true
    /\ (forall s1,
          Part000.remote img file w (mkState p []) = (Ok None, s1) ->
          old
          = match Part000.runLocalObjectAnalysis "previewImg" w
                    (mkState
                       (with_text "statusMessage" "local test begins" (page s1))
                       (trace s1)) with
            | (Ok data, s2) => (Ok data, s2)
            | (Throw e, s2) =>
                (Ok VUndef,
                 mkState (page s2)
                   (trace s2 ++ [ConsoleWarn "Local AI failed" (Some e)]))
            end)
    /\ (forall s guess s2,
          dataset_unavailable w = true ->
          Part000.runLocalObjectAnalysis "previewImg" w s = (Ok guess, s2) ->
          structurally_valid guess = true)
    /\ ((forall s, fst (IndexJs.identifyLocation img file w s) = Ok VUndef) ->
        text (page (snd (run (IndexJs.handleFileSelect img file) w p)))
          "statusMessage"
        = "All Scans Failed, Location Not Found")
    /\ ((forall s, fst (Part000.identifyLocation img file w s) = Ok VUndef) ->
        text (page (snd (run (Part000.handleFileSelect img file) w p)))
          "statusMessage"
        = "All Scans Failed, Location Not Found").
Proof.
  intros img file w p out old. subst out old.
  split; [apply IndexJs_identifyLocation_safe |].
  split; [apply Part000_identifyLocation_safe |].
  split; [| split; [| split]].
  - intros s1 H. unfold run, Part000.identifyLocation, bind at 1.
    rewrite H. unfold Part000.local. monad. cbn [node_text to_string].
    match goal with
    | |- context [Part000.runLocalObjectAnalysis ?n ?w0 ?s0] =>
        destruct (Part000.runLocalObjectAnalysis n w0 s0) as [[d|e] s2]
    end; reflexivity.
  - intros s guess s2 Hf H.
    apply (Part000_local_default_valid _ _ _ _ _ Hf H).
  - intros H.
    apply (undefined_result_fails_the_scan 0
             (fun i => IndexJs.identifyLocation i file) img w p H).
  - intros H.
    apply (undefined_result_fails_the_scan 0.3
             (fun i => Part000.identifyLocation i file) img w p H).
Qed.

Lemma exhausted_engines_witness :
  text (page (snd (run (Part000.handleFileSelect img VUndef) offline blank)))
    "statusMessage"
  = "All Scans Failed, Location Not Found".
Proof.
  apply (exhausted_engines_return_undefined img VUndef offline blank).
  intros s. reflexivity.
Defined.

(** C2, as stated, fails: with every service down the local engine of
    part_000 raises, and [identifyLocation] returns [undefined] instead of
    letting that failure through; src/index.js returns [undefined] without
    running a local engine at all. *)
Lemma local_failure_does_not_propagate :
  fst (run (Part000.runLocalObjectAnalysis "previewImg") offline blank)
  = Throw (ReferenceError "cocoSsd")
  /\ fst (run (Part000.identifyLocation img VUndef) offline blank) = Ok VUndef
  /\ ran_local
       (trace (snd (run (IndexJs.identifyLocation img VUndef) offline blank)))
     = false
  /\ fst (run (IndexJs.identifyLocation img VUndef) offline blank) = Ok VUndef.
Proof. repeat split; vm_compute; reflexivity. Qed.

(** *** [renderResults] *)













(** *** The local engine of src/index.js *)

Lemma toLowerCase_empty s : toLowerCase s = "" -> s = "".
Proof. destruct s; simpl; [reflexivity | discriminate]. Qed.

Lemma truthy_label l : l <> "" -> truthy (VStr l) = true.
Proof.
  intros H. simpl. destruct (String.eqb_spec l ""); [contradiction | reflexivity].
Qed.

Lemma mapM_pure {A B : Type} (f : A -> M B) xs ys w :
  Forall2 (fun x y => forall s, f x w s = (Ok y, s)) xs ys ->
  forall s, mapM f xs w s = (Ok ys, s).
Proof.
  induction 1 as [|x y xs ys Hx _ IH]; intros s; [reflexivity |].
  cbn [mapM]. unfold bind. rewrite Hx, IH. reflexivity.
Qed.

Lemma labels_lowered predictions labels w s :
  Forall2 (fun p l => get p "className" = Ok (VStr l) /\ l <> "")
    predictions labels ->
  mapM (fun p =>
          className <- prop p "className" ;;
          label <- (if truthy className then ret className
                    else prop p "class") ;;
          lower label) predictions w s
  = (Ok (map toLowerCase labels), s).
Proof.
  intros H. apply mapM_pure. clear s.
  induction H as [|p l ps ls [Hp Hl] _ IH]; constructor; [| exact IH].
  intros s. monad. rewrite Hp, (truthy_label l Hl). reflexivity.
Qed.

Lemma dedup_incl seen xs x : In x (dedup seen xs) -> In x xs.
Proof.
  revert seen. induction xs as [|y ys IH]; intros seen; simpl; [tauto |].
  destruct (includes seen y); simpl; intros H.
  - right. eapply IH, H.
  - destruct H as [-> | H]; [left; reflexivity | right; eapply IH, H].
Qed.

Lemma candidate_not_empty labels text key :
  Forall (fun l => l <> "") labels ->
  In key (IndexJs.unique_terms (map toLowerCase labels)
            (IndexJs.ocr_words (toLowerCase text))) ->
  key <> "".
Proof.
  intros Hl Hin. apply dedup_incl, in_app_or in Hin as [Hin | Hin].
  - apply in_map_iff in Hin as [l [<- Hin]].
    rewrite Forall_forall in Hl. intros E.
    apply (Hl l Hin), toLowerCase_empty, E.
  - apply filter_In in Hin as [_ Hk].
    intros ->. discriminate Hk.
Qed.

Lemma find_term_run dataset terms w s :
  (forall k, exists v, get dataset k = Ok v) ->
  IndexJs.find_term dataset terms w s = (Ok (find (hits dataset) terms), s).
Proof.
  intros Hd. induction terms as [|t ts IH]; [reflexivity |].
  cbn [IndexJs.find_term find]. unfold hits at 1. monad.
  destruct (Hd t) as [v ->]. destruct (truthy v); [reflexivity | exact IH].
Qed.

Lemma hits_get dataset key :
  hits dataset key = true ->
  exists entry, get dataset key = Ok entry /\ truthy entry = true.
Proof.
  unfold hits. destruct (get dataset key) as [entry|e]; [| discriminate].
  intros H. exists entry. split; [reflexivity | exact H].
Qed.

(** A truthy value has properties to read: the reads cannot throw. *)
Lemma truthy_get_total entry :
  truthy entry = true -> forall k, exists v, get entry k = Ok v.
Proof.
  intros H k. destruct entry; simpl in *; try discriminate; eauto.
  destruct (assoc k fields); eauto.
Qed.

Lemma find_no_hit_on_null dataset terms :
  (forall k, get dataset k = Throw (TypeError k)) ->
  find (hits dataset) terms = None.
Proof.
  intros H. induction terms as [|t ts IH]; [reflexivity |].
  simpl. unfold hits at 1. rewrite H. exact IH.
Qed.

(** The [try] around the dataset lookup, outcome by outcome. *)
Lemma match_dataset_run uniqueTerms ocrWords result w s :
  ~ In "" uniqueTerms ->
  exists guess s',
    try_catch (IndexJs.match_dataset uniqueTerms ocrWords result)
      (fun e =>
         console_warn "Error loading or parsing dataset.json" e ;;
         ret result) w s
    = (Ok guess, s')
    /\ match fetch w "./dataset.json" VUndef with
       | Throw _ => guess = result
       | Ok response =>
           if ok response then
             match body response with
             | Throw _ => guess = result
             | Ok dataset =>
                 match find (hits dataset) uniqueTerms with
                 | None => guess = result
                 | Some key =>
                     exists entry lat lng city country reasoning,
                       get dataset key = Ok entry
                       /\ get entry "lat" = Ok lat
                       /\ get entry "lng" = Ok lng
                       /\ get entry "city" = Ok city
                       /\ get entry "country" = Ok country
                       /\ get entry "reasoning" = Ok reasoning
                       /\ guess
                          = IndexJs.assign "reasoning"
                              (VStr ("Local AI identified '" ++ key ++ "' via "
                                     ++ (if includes ocrWords key
                                         then "Text Analysis"
                                         else "Visual Recognition")
                                     ++ ". " ++ to_string w reasoning))
                            (IndexJs.assign "confidence"
                               (VNum (if includes ocrWords key
                                      then 0.7 else 0.4))
                            (IndexJs.assign "country" country
                            (IndexJs.assign "city" city
                            (IndexJs.assign "lng" lng
                            (IndexJs.assign "lat" lat result)))))
                 end
             end
           else guess = result
       end.
Proof.
  intros Hne. unfold IndexJs.match_dataset. monad.
  destruct (fetch w "./dataset.json" VUndef) as [response|e];
    [| eexists; eexists; split; reflexivity].
  monad. destruct (ok response);
    [| eexists; eexists; split; reflexivity].
  monad. destruct (body response) as [dataset|e];
    [| eexists; eexists; split; reflexivity].
  assert (Hcases : (forall k, exists v, get dataset k = Ok v)
                   \/ (forall k, get dataset k = Throw (TypeError k))).
  { destruct dataset; simpl; try (right; reflexivity); left; intros k; eauto.
    destruct (assoc k fields); eauto. }
  destruct Hcases as [Hd | Hd].
  - rewrite (find_term_run dataset uniqueTerms w _ Hd).
    destruct (find (hits dataset) uniqueTerms) as [key|] eqn:Hf;
      [| eexists; eexists; split; reflexivity].
    apply find_some in Hf as [Hin Hhit].
    destruct (String.eqb_spec key "") as [-> | _]; [contradiction |].
    apply hits_get in Hhit as [entry [He Te]].
    rewrite He, Te.
    destruct (truthy_get_total _ Te "lat") as [lat Hlat].
    destruct (truthy_get_total _ Te "lng") as [lng Hlng].
    destruct (truthy_get_total _ Te "city") as [city Hcity].
    destruct (truthy_get_total _ Te "country") as [country Hcountry].
    destruct (truthy_get_total _ Te "reasoning") as [reasoning Hreason].
    rewrite Hlat, Hlng, Hcity, Hcountry, Hreason.
    eexists. eexists. split; [reflexivity |].
    exists entry, lat, lng, city, country, reasoning.
    repeat split; assumption || reflexivity.
  - assert (Hnone := find_no_hit_on_null dataset uniqueTerms Hd).
    rewrite Hnone.
    destruct uniqueTerms as [|t ts]; cbn [IndexJs.find_term]; monad;
      [| rewrite Hd]; eexists; eexists; split; reflexivity.
Qed.

(** The engine of src/index.js once both recognizers have answered,
    outcome by outcome, with the test of the code: a term is taken when
    [dataset[term]] is truthy. *)
Lemma IndexJs_local_engine_run :
  forall node base64Image w s labels text,
    recognized w base64Image labels text ->
    let objects := map toLowerCase labels in
    let ocrWords := IndexJs.ocr_words (toLowerCase text) in
    let uniqueTerms := IndexJs.unique_terms objects ocrWords in
    let fallback :=
      IndexJs.default_result objects
        (substring 0 60 (newlines_to_spaces text)) in
    get fallback "confidence" = Ok (VNum 0.2)
    /\ get fallback "lat" = Ok (VNum 48.8566)
    /\ get fallback "lng" = Ok (VNum 2.3522)
    /\ get fallback "reasoning"
       = Ok (VStr "Local analysis could not match features to the database.")
    /\ exists guess s',
         IndexJs.runLocalObjectAnalysis node base64Image w s = (Ok guess, s')
         /\ match fetch w "./dataset.json" VUndef with
            | Throw _ => guess = fallback
            | Ok response =>
                if ok response then
                  match body response with
                  | Throw _ => guess = fallback
                  | Ok dataset =>
                      match find (hits dataset) uniqueTerms with
                      | None => guess = fallback
                      | Some key =>
                          get guess "confidence"
                          = Ok (VNum (if includes ocrWords key
                                      then 0.7 else 0.4))
                          /\ exists entry,
                               get dataset key = Ok entry
                               /\ get guess "lat" = get entry "lat"
                               /\ get guess "lng" = get entry "lng"
                               /\ get guess "city" = get entry "city"
                               /\ get guess "country" = get entry "country"
                      end
                  end
                else guess = fallback
            end.
Proof.
  intros node base64Image w s labels text
    [Hload [predictions [Hcls Hlabels]] [ocrResult [data [Hocr [Hdata Htext]]]]]
    objects ocrWords uniqueTerms fallback.
  repeat (split; [reflexivity |]).
  assert (Hne : ~ In "" uniqueTerms).
  { intros Hin. apply (candidate_not_empty labels text "") in Hin;
      [contradiction |].
    clear -Hlabels. induction Hlabels as [|p l ps ls [_ Hl] _ IH];
      constructor; assumption. }
  unfold IndexJs.runLocalObjectAnalysis, array_map. monad.
  rewrite Hload, Hocr, Hcls. monad. rewrite Hdata, Htext.
  rewrite (labels_lowered predictions labels w _ Hlabels).
  assert (Hocr_text : (if truthy (VStr text) then VStr text else VStr "")
                      = VStr text).
  { simpl. destruct (String.eqb_spec text "") as [-> | _]; reflexivity. }
  rewrite Hocr_text. cbn [lower IndexJs.excerpt]. monad.
  fold objects. fold ocrWords. fold uniqueTerms. fold fallback.
  match goal with
  | |- context [let (r, s') := ?m ?w0 ?s0 in _] =>
      destruct (match_dataset_run uniqueTerms ocrWords fallback w0 s0 Hne)
        as [guess [s' [Hrun Hcases]]]
  end.
  exists guess, s'. split.
  - unfold try_catch in Hrun. monad_in Hrun. exact Hrun.
  - destruct (fetch w "./dataset.json" VUndef) as [response|e];
      [| exact Hcases].
    destruct (ok response); [| exact Hcases].
    destruct (body response) as [dataset|e]; [| exact Hcases].
    destruct (find (hits dataset) uniqueTerms) as [key|]; [| exact Hcases].
    destruct Hcases as [entry [lat [lng [city [country [reasoning
      [He [Hlat [Hlng [Hcity [Hcountry [Hreason ->]]]]]]]]]]]].
    split; [reflexivity |].
    exists entry. rewrite Hlat, Hlng, Hcity, Hcountry.
    split; [exact He |]. repeat split; reflexivity.
Qed.

Lemma online_recognized reply labels text :
  Forall (fun l => l <> "") labels ->
  recognized (online reply labels text) img labels text.
Proof.
  intros Hl. split.
  - reflexivity.
  - eexists. split; [reflexivity |].
    induction Hl as [|l ls Hx _ IH]; constructor; [| exact IH].
    split; [reflexivity | exact Hx].
  - eexists. eexists. repeat split; reflexivity.
Qed.

Lemma dedup_app seen xs ys :
  dedup seen (xs ++ ys)
  = (dedup seen xs ++ dedup (rev (dedup seen xs) ++ seen) ys)%list.
Proof.
  revert seen. induction xs as [|x xs IH]; intros seen; [reflexivity |].
  cbn [dedup app]. destruct (includes seen x).
  - apply IH.
  - rewrite IH. cbn [rev app]. rewrite <- app_assoc. reflexivity.
Qed.

(** The candidate terms start with the classifier labels; the OCR words
    follow, without those already listed. *)
Lemma unique_terms_labels_first objects ocrWords :
  IndexJs.unique_terms objects ocrWords
  = (unique objects ++ dedup (rev (unique objects)) ocrWords)%list.
Proof.
  unfold IndexJs.unique_terms, unique. rewrite dedup_app, app_nil_r.
  reflexivity.
Qed.

(** C7, at the input where the code departs from it.  The classifier sees
    a temple, the text recognizer reads 'Hanoi', and both terms are dataset
    keys.  The candidate list is built as [...objects, ...ocrWords]:
    the label comes first, so 'temple' is matched, by visual recognition,
    with confidence 0.4.  With the candidates in the order hanoi, temple
    the first of them, 'hanoi', is the one found. *)
Theorem classifier_labels_precede_text :
  let w := online reply_nowhere ["Temple"] "Hanoi" in
  let out := run (IndexJs.runLocalObjectAnalysis "previewImg" img) w blank in
  let field := fun k =>
    match fst out with
    | Ok guess => get guess k
    | Throw e => Throw e
    end in
  IndexJs.ocr_words (toLowerCase "Hanoi") = ["hanoi"]
  /\ IndexJs.unique_terms ["temple"] ["hanoi"] = ["temple"; "hanoi"]
  /\ match body dataset with
     | Ok keyed => fst (run (IndexJs.find_term keyed ["hanoi"; "temple"]) w blank)
     | Throw e => Throw e
     end = Ok (Some "hanoi")
  /\ field "city" = Ok (VStr "Siem Reap")
  /\ field "confidence" = Ok (VNum 0.4)
  /\ field "reasoning"
     = Ok (VStr "Local AI identified 'temple' via Visual Recognition. Temple architecture.").
Proof. repeat split; vm_compute; reflexivity. Qed.

(* ------------------------------------------------------------------ *)
(** * Further properties of the code *)

Import Session Conditions Cases.

(** *** More on the remote phase *)

Lemma assoc_set_field_other k k' x fs :
  k' <> k -> assoc k' (set_field k x fs) = assoc k' fs.
Proof.
  intros Hne. induction fs as [|[k0 v] fs IH]; simpl.
  - destruct (String.eqb_spec k' k); [contradiction | reflexivity].
  - destruct (String.eqb_spec k k0) as [-> | Hk]; simpl.
    + destruct (String.eqb_spec k' k0); [contradiction | reflexivity].
    + destruct (k' =? k0); [reflexivity | exact IH].
Qed.

(** X1. When the acceptance test of an attempt of [identifyLocation] returns
    a guess, the guess carries the source label of the attempt, agrees with
    the parsed reply on every other property, both coordinates of the reply
    are truthy, and the page and the trace are as they were. *)
Theorem accepted_guess_is_the_reply_restamped :
  forall parsed source w s guess s',
    accept parsed source w s = (Ok (Some guess), s') ->
    get guess "source" = Ok (VStr source)
    /\ (forall k, k <> "source" -> get guess k = get parsed k)
    /\ (exists lat lng,
          get parsed "lat" = Ok lat /\ truthy lat = true
          /\ get parsed "lng" = Ok lng /\ truthy lng = true)
    /\ s' = s.
Proof.
  intros parsed source w s guess s' H.
  assert (Hc : exists lat lng,
             get parsed "lat" = Ok lat /\ truthy lat = true
             /\ get parsed "lng" = Ok lng /\ truthy lng = true).
  { revert H. unfold accept, bind, prop, lift.
    destruct (get parsed "lat") as [lat|e]; [| discriminate].
    destruct (truthy lat) eqn:Tlat; [| discriminate].
    destruct (get parsed "lng") as [lng|e]; [| discriminate].
    destruct (truthy lng) eqn:Tlng; [| discriminate].
    intros _. exists lat, lng. repeat split; assumption || reflexivity. }
  apply accept_some_inv in H as [-> ->].
  split; [apply get_spread_with |]. split; [| split; [exact Hc | reflexivity]].
  intros k Hk. destruct Hc as [lat [lng [Hlat [Tlat _]]]].
  destruct parsed; simpl in Hlat; try (injection Hlat as <-; discriminate Tlat);
    try discriminate Hlat.
  unfold spread_with, get. cbn [own_fields].
  rewrite (assoc_set_field_other _ _ _ _ Hk). reflexivity.
Qed.

Lemma accepted_guess_witness :
  get (spread_with reply_hanoi "source" (VStr "Gemini 3 Flash")) "city"
  = get reply_hanoi "city".
Proof.
  refine (proj1 (proj2 (accepted_guess_is_the_reply_restamped reply_hanoi
            "Gemini 3 Flash" offline (mkState blank []) _ _ eq_refl))
            "city" _).
  discriminate.
Defined.

Section Keeps.

Context {A : Type} (f : Page -> A).

Lemma keeps_still {B : Type} (m : M B) :
  (forall w s, page (snd (m w s)) = page s) -> keeps f m.
Proof. intros H w s. rewrite H. reflexivity. Qed.

Lemma keeps_ret {B : Type} (b : B) : keeps f (ret b).
Proof. apply keeps_still. reflexivity. Qed.

Lemma keeps_throw {B : Type} (e : exn) : keeps f (@throw B e).
Proof. apply keeps_still. reflexivity. Qed.

Lemma keeps_lift {B : Type} (r : result B) : keeps f (lift r).
Proof. apply keeps_still. reflexivity. Qed.

Lemma keeps_ask {B : Type} (g : World -> B) : keeps f (ask g).
Proof. apply keeps_still. reflexivity. Qed.

Lemma keeps_read {B : Type} (g : Page -> B) : keeps f (read g).
Proof. apply keeps_still. reflexivity. Qed.

Lemma keeps_emit (e : event) : keeps f (emit e).
Proof. apply keeps_still. reflexivity. Qed.

Lemma keeps_update (g : Page -> Page) :
  (forall p, f (g p) = f p) -> keeps f (update g).
Proof. intros H w s. apply H. Qed.

Lemma keeps_set_text (id : string) (v : value) :
  (forall t p, f (with_text id t p) = f p) -> keeps f (set_text id v).
Proof. intros H w s. apply H. Qed.

Lemma keeps_bind {B C : Type} (m : M B) (k : B -> M C) :
  keeps f m -> (forall b, keeps f (k b)) -> keeps f (bind m k).
Proof.
  intros Hm Hk w s. unfold bind. specialize (Hm w s).
  destruct (m w s) as [[b|e] s1]; simpl in *.
  - rewrite Hk. exact Hm.
  - exact Hm.
Qed.

Lemma keeps_try_catch {B : Type} (m : M B) (h : exn -> M B) :
  keeps f m -> (forall e, keeps f (h e)) -> keeps f (try_catch m h).
Proof.
  intros Hm Hh w s. unfold try_catch. specialize (Hm w s).
  destruct (m w s) as [[b|e] s1]; simpl in *.
  - exact Hm.
  - rewrite Hh. exact Hm.
Qed.

Lemma keeps_mapM {B C : Type} (g : B -> M C) (xs : list B) :
  (forall x, keeps f (g x)) -> keeps f (mapM g xs).
Proof.
  intros Hg. induction xs as [|x xs IH]; simpl.
  - apply keeps_ret.
  - apply keeps_bind; [apply Hg | intros y].
    apply keeps_bind; [apply IH | intros ys]. apply keeps_ret.
Qed.

Lemma keeps_array_map {C : Type} (v : value) (g : value -> M C) :
  (forall x, keeps f (g x)) -> keeps f (array_map v g).
Proof.
  intros Hg. destruct v; simpl; try apply keeps_throw.
  apply keeps_mapM, Hg.
Qed.

Lemma keeps_prop_opt (v : value) (k : string) : keeps f (prop_opt v k).
Proof. destruct v; simpl; first [apply keeps_ret | apply keeps_lift]. Qed.

Lemma keeps_ident (sc : scope) (x : string) : keeps f (ident sc x).
Proof.
  unfold ident. destruct (assoc x sc); [apply keeps_ret | apply keeps_throw].
Qed.

End Keeps.

(** One step of a proof that a computation keeps a part of the page. *)
Ltac keeps_step :=
  lazymatch goal with
  | |- keeps _ (bind _ _) => apply keeps_bind; [| intros ?]
  | |- keeps _ (try_catch _ _) => apply keeps_try_catch; [| intros ?]
  | |- keeps _ (ret _) => apply keeps_ret
  | |- keeps _ (throw _) => apply keeps_throw
  | |- keeps _ (lift _) => apply keeps_lift
  | |- keeps _ (ask _) => apply keeps_ask
  | |- keeps _ (read _) => apply keeps_read
  | |- keeps _ (emit _) => apply keeps_emit
  | |- keeps _ (update _) => apply keeps_update; reflexivity
  | |- keeps _ (set_text _ _) => apply keeps_set_text; reflexivity
  | |- keeps _ (prop _ _) => apply keeps_lift
  | |- keeps _ (prop_opt _ _) => apply keeps_prop_opt
  | |- keeps _ (ident _ _) => apply keeps_ident
  | |- keeps _ (array_map _ _) => apply keeps_array_map; intros ?
  | |- keeps _ (if ?b then _ else _) => destruct b
  | |- keeps _ (match ?x with _ => _ end) => destruct x
  | |- keeps _ ?m => let h := head m in unfold h
  end.

Lemma IndexJs_identifyLocation_keeps {A : Type} (f : Page -> A) img file :
  keeps f (IndexJs.identifyLocation img file).
Proof.
  unfold IndexJs.identifyLocation, IndexJs.primary, IndexJs.secondary,
    IndexJs.Vision, IndexJs.prompt, generate, accept, do_fetch, console_log,
    console_warn, json, ToString, join.
  repeat keeps_step.
Qed.

(** X2. [identifyLocation] of src/index.js leaves the page exactly as it
    found it and starts no local model, whatever the services answer. *)
Theorem index_identifyLocation_stays_off_the_page :
  forall img file w p,
    let out := run (IndexJs.identifyLocation img file) w p in
    page (snd out) = p /\ ran_local (trace (snd out)) = false.
Proof.
  intros img file w p out. subst out. split.
  - apply (IndexJs_identifyLocation_keeps (fun q => q) img file w
             (mkState p [])).
  - apply IndexJs_never_runs_local.
Qed.

Lemma find_object_keeps {A : Type} (f : Page -> A) dataset objects :
  keeps f (Part000.find_object dataset objects).
Proof.
  induction objects as [|obj rest IH]; simpl.
  - apply keeps_ret.
  - unfold ToString. keeps_step. { keeps_step. }
    keeps_step. { keeps_step. }
    destruct (truthy b0); [apply keeps_ret | exact IH].
Qed.


Lemma Part000_local_requests_nothing model :
  emits (fun e => negb (is_request model e)) Part000.local.
Proof.
  unfold Part000.local, Part000.runLocalObjectAnalysis,
    Part000.match_dataset, Part000.take, Part000.keys, do_fetch,
    console_log, console_warn, console_warn_1, json, ToString, join.
  repeat first
    [ apply emits_emit; reflexivity
    | apply find_object_emits
    | emits_step ].
Qed.

(** X3. When the first model answers with truthy lat and lng, the run ends
    there. In part_000 the reply is returned with source 'Gemini-3-Flash
    AI', the page is untouched, the trace holds exactly one event, the
    second model is not requested and no local model is started. In
    src/index.js, provided the hint lookup returned, the reply is returned
    with source 'Gemini 3 Flash' and the request to the model is the last
    event of the run. *)
Theorem first_truthy_reply_ends_the_run :
  forall img file w p parsed lat lng,
    (forall image text,
       generateContent w "gemini-3-flash-preview" image text = Ok parsed) ->
    get parsed "lat" = Ok lat -> truthy lat = true ->
    get parsed "lng" = Ok lng -> truthy lng = true ->
    let old := run (Part000.identifyLocation img file) w p in
    let out := run (IndexJs.identifyLocation img file) w p in
    fst old = Ok (spread_with parsed "source" (VStr "Gemini-3-Flash AI"))
    /\ page (snd old) = p
    /\ List.length (trace (snd old)) = 1%nat
    /\ requested "gemini-2.5-flash" (trace (snd old)) = false
    /\ ran_local (trace (snd old)) = false
    /\ (returned (fst (run (IndexJs.Vision img) w p)) = true ->
        fst out = Ok (spread_with parsed "source" (VStr "Gemini 3 Flash"))
        /\ exists before text,
             trace (snd out)
             = (before
                ++ [Generate "gemini-3-flash-preview" (split_comma_1 img)
                      text])%list).
Proof.
  intros img file w p parsed lat lng H Hlat Tlat Hlng Tlng old out.
  destruct (accepted_first_reply_ends_run img file w p parsed lat lng
              H Hlat Tlat Hlng Tlng) as [[text E] Hout].
  subst old out. rewrite E. cbn [fst snd page trace].
  repeat (split; [reflexivity |]).
  intros HV. unfold run in HV, Hout |- *.
  destruct (IndexJs.Vision img w (mkState p [])) as [[hints|e] s1] eqn:EV;
    [| discriminate HV].
  destruct (Hout hints s1 eq_refl) as [text' E'].
  rewrite E'. cbn [fst snd trace]. split; [reflexivity |].
  exists (trace s1 ++ [ConsoleLog [VStr "Serp Response:"; VStr hints]])%list,
    text'.
  rewrite <- app_assoc. reflexivity.
Qed.

Lemma first_truthy_reply_witness :
  fst (run (Part000.identifyLocation img VNull) (online reply_hanoi [] "")
         visited)
  = Ok (spread_with reply_hanoi "source" (VStr "Gemini-3-Flash AI"))
  /\ page (snd (run (Part000.identifyLocation img VNull)
                  (online reply_hanoi [] "") visited)) = visited.
Proof.
  pose proof (first_truthy_reply_ends_the_run img VNull
                (online reply_hanoi [] "") visited reply_hanoi
                (VNum 21.0285) (VNum 105.8542)
                (fun _ _ => eq_refl) eq_refl eq_refl eq_refl eq_refl) as H.
  split; [exact (proj1 H) | exact (proj1 (proj2 H))].
Defined.

Lemma attempt_trace model source img file w s :
  exists text,
    trace (snd (Part000.attempt model source img file w s))
    = (trace s ++ [Generate model (split_comma_1 img) text])%list.
Proof.
  eexists. unfold Part000.attempt, Part000.prompt, generate, accept. monad.
  cbn [assoc String.eqb Ascii.eqb Bool.eqb app Part000.parameters ident].
  monad.
  match goal with
  | |- context [generateContent w model ?i ?t] =>
      destruct (generateContent w model i t) as [parsed|e]
  end; monad; [| reflexivity].
  destruct (get parsed "lat") as [lat|e]; monad; [| reflexivity].
  destruct (truthy lat); monad; [| reflexivity].
  destruct (get parsed "lng") as [lng|e]; monad; [| reflexivity].
  destruct (truthy lng); reflexivity.
Qed.

(** An attempt leaves the page alone and adds its request to the trace,
    however it ends. *)
Lemma attempt_state model source img file w s :
  exists text,
    snd (Part000.attempt model source img file w s)
    = mkState (page s)
        (trace s ++ [Generate model (split_comma_1 img) text]).
Proof.
  eexists. unfold Part000.attempt, Part000.prompt, generate, accept. monad.
  cbn [assoc String.eqb Ascii.eqb Bool.eqb app Part000.parameters ident].
  monad.
  match goal with
  | |- context [generateContent w model ?i ?t] =>
      destruct (generateContent w model i t) as [parsed|e]
  end; monad; [| reflexivity].
  destruct (get parsed "lat") as [lat|e]; monad; [| reflexivity].
  destruct (truthy lat); monad; [| reflexivity].
  destruct (get parsed "lng") as [lng|e]; monad; [| reflexivity].
  destruct (truthy lng); reflexivity.
Qed.

(** The remote phase of part_000 when the first attempt throws and the
    second model replies. *)
Lemma Part000_remote_second_reply img file w s e parsed :
  fst (Part000.attempt "gemini-3-flash-preview" "Gemini-3-Flash AI" img file
         w s) = Throw e ->
  (forall image text,
     generateContent w "gemini-2.5-flash" image text = Ok parsed) ->
  exists text1 text2,
    Part000.remote img file w s
    = try_catch (accept parsed "Gemini-2.5-Flash AI")
        (fun err => console_warn "Secondary AI failed" err ;; ret None)
        w (mkState (page s)
             (trace s
              ++ [ Generate "gemini-3-flash-preview" (split_comma_1 img)
                     text1;
                   ConsoleWarn "AI Analysis failed, trying other models"
                     (Some e);
                   Generate "gemini-2.5-flash" (split_comma_1 img) text2 ])).
Proof.
  intros H1 H2.
  destruct (attempt_state "gemini-3-flash-preview" "Gemini-3-Flash AI"
              img file w s) as [text1 E1].
  unfold Part000.remote. unfold try_catch at 1.
  destruct (Part000.attempt "gemini-3-flash-preview" "Gemini-3-Flash AI"
              img file w s) as [r s1].
  cbn [fst snd] in H1, E1. subst r s1.
  unfold bind at 1, console_warn, emit. cbn [page trace].
  unfold try_catch at 1.
  match goal with
  | |- context [Part000.attempt ?m ?src img file w ?s0] =>
      destruct (attempt_reply m src img file w s0 parsed H2) as [text2 E2]
  end.
  exists text1, text2. rewrite E2. unfold try_catch.
  cbn [page trace]. rewrite <- !app_assoc. reflexivity.
Qed.

(** C1 (amended). [identifyLocation] never raises, in either variant.  A
    reply of a remote engine in which [lat] or [lng] is missing is not
    selected, and the next stage runs.  In src/index.js that is the
    secondary attempt, after which the result is [undefined].  In part_000
    it is the local engine, both after a reply of the first model (the
    second model is then not asked) and after a reply of the second model
    (asked because the first attempt threw, whatever the reason): the run
    continues as the local stage from the trace of the requests made so
    far.  Range, finiteness
    and the presence of a confidence are not checked: a reply whose [lat]
    and [lng] are both truthy is selected as it is, under the label of the
    model that gave it. *)
Theorem reply_without_coordinates_is_skipped :
  forall img file w p parsed,
    let out := run (IndexJs.identifyLocation img file) w p in
    let old := run (Part000.identifyLocation img file) w p in
    let local_stage : M value :=
      last <- Part000.local ;;
      match last with
      | Some data => ret data
      | None => ret VUndef
      end in
    let first_replies :=
      forall image text,
        generateContent w "gemini-3-flash-preview" image text = Ok parsed in
    let second_replies := fun e =>
      fst (run (Part000.attempt "gemini-3-flash-preview" "Gemini-3-Flash AI"
                  img file) w p) = Throw e
      /\ (forall image text,
            generateContent w "gemini-2.5-flash" image text = Ok parsed) in
    let missing := absent parsed "lat" || absent parsed "lng" = true in
    returned (fst out) = true
    /\ returned (fst old) = true
    /\ (first_replies -> missing ->
        fst out = Ok VUndef
        /\ (exists tr,
             trace (snd out)
             = (tr ++ [ConsoleWarn "Secondary AI failed"
                         (Some (ReferenceError "serpResponse"))])%list)
        /\ (exists text,
             old
             = local_stage w
                 (mkState p
                    [Generate "gemini-3-flash-preview" (split_comma_1 img)
                       text])))
    /\ (forall e, second_replies e -> missing ->
        exists text1 text2,
          old
          = local_stage w
              (mkState p
                 [ Generate "gemini-3-flash-preview" (split_comma_1 img)
                     text1;
                   ConsoleWarn "AI Analysis failed, trying other models"
                     (Some e);
                   Generate "gemini-2.5-flash" (split_comma_1 img) text2 ]))
    /\ (forall lat lng,
          get parsed "lat" = Ok lat -> truthy lat = true ->
          get parsed "lng" = Ok lng -> truthy lng = true ->
          (first_replies ->
           fst old
           = Ok (spread_with parsed "source" (VStr "Gemini-3-Flash AI"))
           /\ (returned (fst (run (IndexJs.Vision img) w p)) = true ->
               fst out
               = Ok (spread_with parsed "source" (VStr "Gemini 3 Flash"))))
          /\ (forall e, second_replies e ->
              fst old
              = Ok (spread_with parsed "source"
                      (VStr "Gemini-2.5-Flash AI")))).
Proof.
  intros img file w p parsed out old local_stage first_replies
    second_replies missing.
  subst out old local_stage first_replies second_replies missing.
  unfold run.
  split; [apply IndexJs_identifyLocation_safe |].
  split; [apply Part000_identifyLocation_safe |].
  split; [| split].
  - intros H Habs. rewrite IndexJs_identifyLocation_run.
    destruct (primary_absent img file w (mkState p []) parsed H Habs)
      as [s1 ->].
    split; [reflexivity |]. split; [eexists; reflexivity |].
    destruct (Part000_remote_reply img file w (mkState p []) parsed H)
      as [text E].
    exists text. unfold Part000.identifyLocation. unfold bind at 1.
    rewrite E. unfold try_catch at 1. rewrite accept_absent by exact Habs.
    reflexivity.
  - intros e [H1 H2] Habs.
    destruct (Part000_remote_second_reply img file w (mkState p []) e parsed
                H1 H2) as [text1 [text2 E]].
    exists text1, text2. unfold Part000.identifyLocation. unfold bind at 1.
    rewrite E. unfold try_catch at 1. rewrite accept_absent by exact Habs.
    reflexivity.
  - intros lat lng Hlat Tlat Hlng Tlng. split.
    + intros H. split.
      * destruct (Part000_remote_reply img file w (mkState p []) parsed H)
          as [text E].
        unfold Part000.identifyLocation, bind at 1. rewrite E.
        unfold try_catch.
        rewrite (accept_truthy _ _ lat lng) by assumption. reflexivity.
      * intros HV. rewrite IndexJs_identifyLocation_run.
        destruct (IndexJs.Vision img w (mkState p []))
          as [[hints|e] s1] eqn:EV; [| discriminate HV].
        destruct (primary_after_hints img file w _ hints s1 parsed EV H)
          as [text ->].
        unfold try_catch.
        rewrite (accept_truthy _ _ lat lng) by assumption. reflexivity.
    + intros e [H1 H2].
      destruct (Part000_remote_second_reply img file w (mkState p []) e
                  parsed H1 H2) as [text1 [text2 E]].
      unfold Part000.identifyLocation, bind at 1. rewrite E.
      unfold try_catch.
      rewrite (accept_truthy _ _ lat lng) by assumption. reflexivity.
Qed.

Lemma reply_without_coordinates_witness :
  absent reply_nowhere "lat" || absent reply_nowhere "lng" = true
  /\ fst (run (IndexJs.identifyLocation img VUndef)
            (online reply_nowhere [] "") blank) = Ok VUndef
  /\ fst (run (Part000.identifyLocation img VUndef)
            (Cases.second_only reply_nowhere) blank) = Ok VUndef
  /\ fst (run (Part000.identifyLocation img VUndef)
            (Cases.second_only reply_hanoi) blank)
     = Ok (spread_with reply_hanoi "source" (VStr "Gemini-2.5-Flash AI")).
Proof.
  split; [reflexivity |]. split; [| split].
  - exact (proj1 (proj1 (proj2 (proj2
             (reply_without_coordinates_is_skipped img VUndef
                (online reply_nowhere [] "") blank reply_nowhere)))
             (fun _ _ => eq_refl) eq_refl)).
  - destruct (proj1 (proj2 (proj2 (proj2
                (reply_without_coordinates_is_skipped img VUndef
                   (Cases.second_only reply_nowhere) blank reply_nowhere))))
                (Rejected "generateContent")
                (conj eq_refl (fun _ _ => eq_refl)) eq_refl)
      as [text1 [text2 E]].
    rewrite E. reflexivity.
  - exact (proj2 (proj2 (proj2 (proj2 (proj2
             (reply_without_coordinates_is_skipped img VUndef
                (Cases.second_only reply_hanoi) blank reply_hanoi))))
             (VNum 21.0285) (VNum 105.8542) eq_refl eq_refl eq_refl eq_refl)
             (Rejected "generateContent")
             (conj eq_refl (fun _ _ => eq_refl))).
Defined.

Lemma requested_app model tr1 tr2 :
  requested model (tr1 ++ tr2) = requested model tr1 || requested model tr2.
Proof. apply existsb_app. Qed.

(** X4. In part_000 the second model, gemini-2.5-flash, is requested exactly
    when the first attempt threw: a first reply that is merely not accepted
    leads straight to the local engine. *)
Theorem second_model_only_after_a_throw :
  forall img file w p,
    let first :=
      Part000.attempt "gemini-3-flash-preview" "Gemini-3-Flash AI" img file w
        (mkState p []) in
    let old := run (Part000.identifyLocation img file) w p in
    requested "gemini-2.5-flash" (trace (snd old))
    = negb (returned (fst first)).
Proof.
  intros img file w p first old. subst first old.
  unfold run, Part000.identifyLocation, Part000.remote. monad.
  destruct (attempt_trace "gemini-3-flash-preview" "Gemini-3-Flash AI"
              img file w (mkState p [])) as [text1 E1].
  destruct (Part000.attempt "gemini-3-flash-preview" "Gemini-3-Flash AI"
              img file w (mkState p [])) as [[[guess|]|e] s1];
    cbn [fst snd returned negb trace app] in *.
  - rewrite E1. reflexivity.
  - destruct (Part000_local_requests_nothing "gemini-2.5-flash" w s1)
      as [new2 [E2 F2]].
    destruct (Part000.local w s1) as [[[d|]|e] s2]; cbn [fst snd] in *;
      rewrite E2, E1, requested_app; cbn [requested existsb is_request];
      fold (requested "gemini-2.5-flash" new2);
      unfold requested; rewrite (existsb_forallb_negb _ _ F2); reflexivity.
  - match goal with
    | |- context [Part000.attempt ?m ?src img file w ?s0] =>
        destruct (attempt_trace m src img file w s0) as [text2 E2];
        destruct (Part000.attempt m src img file w s0) as [[[guess|]|e2] s3]
    end; cbn [fst snd trace] in *.
    + rewrite E2, requested_app. cbn. apply orb_true_r.
    + destruct (Part000_local_run w s3) as [rest E3].
      destruct (Part000.local w s3) as [[[d|]|e3] s4]; cbn [fst snd] in *;
        rewrite E3, E2, !requested_app; cbn; rewrite ?orb_true_r;
        reflexivity.
    + match goal with
      | |- context [Part000.local w ?s0] =>
          destruct (Part000_local_run w s0) as [rest E3];
          destruct (Part000.local w s0) as [[[d|]|e3] s4]
      end; cbn [fst snd trace] in *;
        rewrite E3, E2, !requested_app; cbn; rewrite ?orb_true_r;
        reflexivity.
Qed.

(** *** The hint lookup *)

Lemma props_read (k : string) items values w :
  Forall2 (fun item v => get item k = Ok v) items values ->
  forall s, mapM (fun item => prop item k) items w s = (Ok values, s).
Proof.
  intros H. apply mapM_pure.
  induction H as [|item v items values Hv _ IH]; constructor;
    [| exact IH].
  intros s. monad. rewrite Hv. reflexivity.
Qed.





(** *** Rendering and the file handler *)

Lemma includes_after_add (l : list string) (c : string) :
  includes (if includes l c then l else (l ++ [c])%list) c = true.
Proof.
  destruct (includes l c) eqn:E; [exact E |].
  unfold includes. rewrite existsb_app. simpl.
  rewrite String.eqb_refl. apply orb_true_r.
Qed.

Lemma includes_after_remove (l : list string) (c : string) :
  includes (filter (fun c' => negb (c' =? c)) l) c = false.
Proof.
  unfold includes. induction l as [|x l IH]; simpl; [reflexivity |].
  destruct (String.eqb_spec x c) as [-> | Hne]; simpl; [exact IH |].
  destruct (String.eqb_spec c x) as [-> | _]; [contradiction | exact IH].
Qed.








(** *** The local engine of part_000 *)

(** X8. In part_000, when the model loads and the detector answers with a
    falsy value or an empty list, [runLocalObjectAnalysis] throws 'No
    objects detected locally.' without requesting the dataset, and the local
    phase of [identifyLocation] catches the error and yields no guess. *)
Theorem nothing_detected_is_an_error :
  forall node w s predictions,
    cocoSsd_load w = Ok tt ->
    cocoSsd_detect w = Ok predictions ->
    negb (truthy predictions) || Part000.length_is_zero predictions = true ->
    let out := Part000.runLocalObjectAnalysis node w s in
    fst out = Throw (Error "No objects detected locally.")
    /\ existsb is_fetch (trace (snd out)) = existsb is_fetch (trace s)
    /\ fst (Part000.local w s) = Ok None.
Proof.
  intros node w s predictions Hload Hdet Hnone out. subst out.
  unfold Part000.local, Part000.runLocalObjectAnalysis. monad.
  rewrite Hload. monad. rewrite Hdet. monad. rewrite Hnone. monad.
  repeat split.
  rewrite !existsb_app. cbn. rewrite !orb_false_r. reflexivity.
Qed.

Lemma nothing_detected_witness :
  fst (Part000.runLocalObjectAnalysis "previewImg"
         (online reply_nowhere [] "") (mkState blank []))
  = Throw (Error "No objects detected locally.").
Proof.
  exact (proj1 (nothing_detected_is_an_error "previewImg"
                  (online reply_nowhere [] "") (mkState blank []) (VArr [])
                  eq_refl eq_refl eq_refl)).
Defined.

Lemma Part000_match_dataset_keeps {A : Type} (f : Page -> A) objects vars :
  keeps f (Part000.match_dataset objects vars).
Proof.
  unfold Part000.match_dataset, Part000.take, Part000.keys, do_fetch, json,
    console_log, console_warn_1, ToString.
  repeat first [ apply find_object_keeps | keeps_step ].
Qed.

Lemma Part000_local_shape node w s guess :
  fst (Part000.runLocalObjectAnalysis node w s) = Ok guess ->
  (exists vars listed,
    guess = VObj
      [ ("source", VStr "Fallback: Local TensorFlow.js");
        ("lat", Part000.lat vars);
        ("lng", Part000.lng vars);
        ("city", Part000.city vars);
        ("country", Part000.country vars);
        ("confidence", VNum 0.4);
        ("reasoning", Part000.reasoning vars);
        ("visualAnalysisSummary",
         VStr ("Browser-based Neural Network identified: " ++ listed ++ ".")) ])
  /\ text (page (snd (Part000.runLocalObjectAnalysis node w s)))
       "statusMessage" = "Running Local Test".
Proof.
  unfold Part000.runLocalObjectAnalysis, join. monad.
  destruct (cocoSsd_load w) as [[]|e]; monad;
    [| destruct e; monad; discriminate].
  destruct (cocoSsd_detect w) as [predictions|e]; monad; [| discriminate].
  destruct (negb (truthy predictions) || Part000.length_is_zero predictions);
    monad; [discriminate |].
  match goal with
  | |- context [array_map predictions ?f ?w0 ?s0] =>
      assert (Kmap : keeps (fun p => text p "statusMessage")
                       (array_map predictions f))
        by (apply keeps_array_map; intros ? ? ?; reflexivity);
      specialize (Kmap w0 s0);
      destruct (array_map predictions f w0 s0) as [[objects|e] s1]
  end; monad; [| discriminate].
  match goal with
  | |- context [Part000.match_dataset ?u ?v w s1] =>
      pose proof (Part000_match_dataset_keeps
                    (fun p => text p "statusMessage") u v w s1) as Kmatch;
      destruct (Part000.match_dataset u v w s1) as [[vars|e] s2]
  end; monad; intros H; injection H as <-; cbn [fst snd page] in *.
  - split; [eexists _, _; reflexivity |].
    rewrite Kmatch, Kmap. reflexivity.
  - split; [eexists (Part000.mkLocals _ _ _ _ _), _; reflexivity |].
    rewrite Kmatch, Kmap. reflexivity.
Qed.




(** *** The grading of the local guess *)

Lemma keyed_hits fields term :
  inherited_only fields term = false ->
  hits (VObj fields) term = keyed fields term.
Proof.
  unfold hits, keyed, inherited_only, get, builtin.
  destruct (assoc term fields); [reflexivity |].
  intros ->. reflexivity.
Qed.

Lemma find_keyed fields terms :
  Forall (fun t => inherited_only fields t = false) terms ->
  find (hits (VObj fields)) terms = find (keyed fields) terms.
Proof.
  induction 1 as [|t ts Ht _ IH]; [reflexivity |].
  cbn [find]. rewrite (keyed_hits fields t Ht), IH. reflexivity.
Qed.

Lemma keyed_entry fields key entry :
  keyed fields key = true ->
  get (VObj fields) key = Ok entry ->
  assoc key fields = Some entry /\ truthy entry = true.
Proof.
  unfold keyed, get. destruct (assoc key fields) as [e|]; [| discriminate].
  intros Te H. injection H as <-. split; [reflexivity | exact Te].
Qed.

(** C6 (amended). Once the classifier and the text recognizer have
    answered, with labels and text in ASCII, [runLocalObjectAnalysis] of
    src/index.js returns a guess and does not throw.  For a dataset that is
    a JSON object, and candidate terms none of which is merely the name of
    an inherited member, the first candidate that is a key of the dataset
    with a truthy entry decides: the confidence is 0.7 when that term is
    among the OCR words (also when it is a classifier label as well) and
    0.4 when it is not, and lat, lng, city and country are those of the
    entry.  The guess is the fixed default (confidence 0.2, coordinates
    48.8566, 2.3522, reasoning 'could not match') when no candidate is such
    a key, when the dataset is null, and when the dataset cannot be loaded:
    the request is rejected, the response is not OK, or its body does not
    parse.  The engine of part_000 does not grade: every guess it returns
    has confidence 0.4. *)
Theorem local_guess_confidence :
  forall node base64Image w s labels text,
    recognized w base64Image labels text ->
    ascii_text text = true ->
    Forall (fun l => ascii_text l = true) labels ->
    let objects := map toLowerCase labels in
    let ocrWords := IndexJs.ocr_words (toLowerCase text) in
    let uniqueTerms := IndexJs.unique_terms objects ocrWords in
    let fallback :=
      IndexJs.default_result objects
        (substring 0 60 (newlines_to_spaces text)) in
    get fallback "confidence" = Ok (VNum 0.2)
    /\ get fallback "lat" = Ok (VNum 48.8566)
    /\ get fallback "lng" = Ok (VNum 2.3522)
    /\ get fallback "reasoning"
       = Ok (VStr "Local analysis could not match features to the database.")
    /\ (exists guess s',
          IndexJs.runLocalObjectAnalysis node base64Image w s = (Ok guess, s')
          /\ match fetch w "./dataset.json" VUndef with
             | Throw _ => guess = fallback
             | Ok response =>
                 if ok response then
                   match body response with
                   | Throw _ => guess = fallback
                   | Ok dataset =>
                       (dataset = VNull -> guess = fallback)
                       /\ forall fields,
                            dataset = VObj fields ->
                            Forall (fun t => inherited_only fields t = false)
                              uniqueTerms ->
                            match find (keyed fields) uniqueTerms with
                            | None => guess = fallback
                            | Some key =>
                                get guess "confidence"
                                = Ok (VNum (if includes ocrWords key
                                            then 0.7 else 0.4))
                                /\ exists entry,
                                     assoc key fields = Some entry
                                     /\ truthy entry = true
                                     /\ get guess "lat" = get entry "lat"
                                     /\ get guess "lng" = get entry "lng"
                                     /\ get guess "city" = get entry "city"
                                     /\ get guess "country"
                                        = get entry "country"
                            end
                   end
                 else guess = fallback
             end)
    /\ forall node' w' s' guess',
         fst (Part000.runLocalObjectAnalysis node' w' s') = Ok guess' ->
         get guess' "confidence" = Ok (VNum 0.4).
Proof.
  intros node base64Image w s labels text Hrec _ _
    objects ocrWords uniqueTerms fallback.
  destruct (IndexJs_local_engine_run node base64Image w s labels text Hrec)
    as (F1 & F2 & F3 & F4 & guess & s' & Hrun & Hcases).
  fold objects ocrWords uniqueTerms fallback in Hcases.
  repeat (split; [assumption |]). split.
  - exists guess, s'. split; [exact Hrun |].
    destruct (fetch w "./dataset.json" VUndef) as [response|e];
      [| exact Hcases].
    destruct (ok response); [| exact Hcases].
    destruct (body response) as [dataset|e]; [| exact Hcases].
    split.
    + intros ->.
      rewrite (find_no_hit_on_null VNull uniqueTerms) in Hcases
        by reflexivity.
      exact Hcases.
    + intros fields -> Hterms.
      rewrite (find_keyed fields uniqueTerms Hterms) in Hcases.
      destruct (find (keyed fields) uniqueTerms) as [key|] eqn:Hf;
        [| exact Hcases].
      apply find_some in Hf as [_ Hkey].
      destruct Hcases as [Hconf (entry & He & L1 & L2 & L3 & L4)].
      destruct (keyed_entry fields key entry Hkey He) as [Ha Te].
      split; [exact Hconf |]. exists entry. repeat split; assumption.
  - intros node' w' s'' guess' H.
    destruct (Part000_local_shape node' w' s'' guess' H)
      as [(vars & listed & ->) _].
    reflexivity.
Qed.

Lemma local_guess_witness :
  let confidence_of := fun labels words =>
    match fst (run (IndexJs.runLocalObjectAnalysis "previewImg" img)
                 (online reply_nowhere labels words) blank) with
    | Ok guess => get guess "confidence"
    | Throw e => Throw e
    end in
  let city_of := fun labels words =>
    match fst (run (IndexJs.runLocalObjectAnalysis "previewImg" img)
                 (online reply_nowhere labels words) blank) with
    | Ok guess => get guess "city"
    | Throw e => Throw e
    end in
  (confidence_of ["Street"] "Welcome to Hanoi" = Ok (VNum 0.7)
   /\ city_of ["Street"] "Welcome to Hanoi" = Ok (VStr "Hanoi"))
  /\ (confidence_of ["Temple"] "Welcome" = Ok (VNum 0.4)
      /\ city_of ["Temple"] "Welcome" = Ok (VStr "Siem Reap"))
  /\ (confidence_of ["Temple"] "Temple gate" = Ok (VNum 0.7)
      /\ city_of ["Temple"] "Temple gate" = Ok (VStr "Siem Reap"))
  /\ (confidence_of ["Street"] "Welcome" = Ok (VNum 0.2)
      /\ city_of ["Street"] "Welcome" = Ok (VStr "Error Location")).
Proof.
  intros confidence_of city_of. subst confidence_of city_of. cbv beta.
  repeat match goal with
         | |- (_ /\ _) /\ _ => split
         end.
  all: match goal with
       | |- match fst (run _ (online _ [?l] ?t) _) with _ => _ end = _ /\ _ =>
           assert (Hrec : recognized (online reply_nowhere [l] t) img [l] t)
             by (apply online_recognized;
                 constructor; [discriminate | constructor]);
           destruct (local_guess_confidence "previewImg" img
                       (online reply_nowhere [l] t) (mkState blank [])
                       [l] t Hrec eq_refl
                       (Forall_cons (P := fun x => ascii_text x = true) l
                          eq_refl (Forall_nil _)))
             as (_ & _ & _ & _ & (guess & s' & Hrun & Hcases) & _)
       end.
  all: unfold run; rewrite Hrun; cbn [fst].
  all: cbn [fetch online network String.prefix String.eqb Ascii.eqb Bool.eqb
            ok body dataset] in Hcases.
  all: destruct Hcases as [_ Hobj]; specialize (Hobj _ eq_refl).
  all: match type of Hobj with
       | Forall ?P ?terms -> _ =>
           assert (Hterms : Forall P terms)
             by (vm_compute; repeat constructor);
           specialize (Hobj Hterms)
       end.
  all: vm_compute in Hobj.
  1-3: destruct Hobj as [Hconf (entry & He & _ & _ & _ & Hcity & _)];
       injection He as <-; split; [exact Hconf | exact Hcity].
  rewrite Hobj. split; reflexivity.
Defined.

(** C6, as stated, fails on part_000, which the claim also describes.  A
    person is detected, no dataset key matches, and the guess comes with
    confidence 0.4 and the placeholder city, not with 0.2; and with nothing
    detected the engine throws. *)
Lemma earlier_engine_does_not_grade :
  match body dataset with
  | Ok keyed_by_term => find (hits keyed_by_term) ["person"]
  | Throw _ => Some ""
  end = None
  /\ match fst (Part000.runLocalObjectAnalysis "previewImg"
                  (online reply_nowhere ["person"] "") (mkState blank [])) with
     | Ok guess => get guess "confidence"
     | Throw e => Throw e
     end = Ok (VNum 0.4)
  /\ match fst (Part000.runLocalObjectAnalysis "previewImg"
                  (online reply_nowhere ["person"] "") (mkState blank [])) with
     | Ok guess => get guess "city"
     | Throw e => Throw e
     end = Ok (VStr "Populated Area")
  /\ fst (Part000.runLocalObjectAnalysis "previewImg"
            (online reply_nowhere [] "") (mkState blank []))
     = Throw (Error "No objects detected locally.").
Proof. repeat split; vm_compute; reflexivity. Qed.

Lemma classes_read predictions labels w s :
  Forall2 (fun p l => get p "class" = Ok (VStr l) /\ l <> "")
    predictions labels ->
  mapM (fun p => prop p "class") predictions w s = (Ok (map VStr labels), s).
Proof.
  intros H. apply props_read. clear s.
  induction H as [|p l ps ls [Hp _] _ IH]; constructor; assumption.
Qed.

Lemma dedup_values_strings seen xs :
  Part000.dedup_values (map VStr seen) (map VStr xs)
  = map VStr (dedup seen xs).
Proof.
  revert seen. induction xs as [|x xs IH]; intros seen; [reflexivity |].
  cbn [map Part000.dedup_values dedup]. unfold includes.
  replace (existsb (Part000.same_value_zero (VStr x)) (map VStr seen))
    with (existsb (String.eqb x) seen)
    by (clear; induction seen as [|y ys IHs]; simpl; congruence).
  destruct (existsb (String.eqb x) seen).
  - apply IH.
  - cbn [map]. f_equal. apply (IH (x :: seen)).
Qed.

Lemma join_strings sep names w s :
  join sep (map VStr names) w s = (Ok (String.concat sep names), s).
Proof.
  unfold join. monad. rewrite map_map. cbn [to_string].
  rewrite map_id. reflexivity.
Qed.



(** The engine up to the dataset lookup, when the detector answered. *)
Lemma Part000_local_detected node w s labels :
  detected w labels ->
  labels <> [] ->
  exists s1,
    Part000.runLocalObjectAnalysis node w s
    = (let names := unique labels in
       let listed := String.concat ", " names in
       let vars :=
         Part000.mkLocals (VNum 48.8566) (VNum 2.3522) (VStr "Populated Area")
           (VStr "Inferred from Objects")
           (VStr ("Local AI detected: " ++ listed
                  ++ ". Scene contains common objects indicating human presence.")) in
       vars <- try_catch
                 (Part000.match_dataset (map VStr names) vars)
                 (fun e =>
                    console_warn "Error loading or parsing dataset.json" e ;;
                    ret vars) ;;
       ret (VObj
              [ ("source", VStr "Fallback: Local TensorFlow.js");
                ("lat", Part000.lat vars);
                ("lng", Part000.lng vars);
                ("city", Part000.city vars);
                ("country", Part000.country vars);
                ("confidence", VNum 0.4);
                ("reasoning", Part000.reasoning vars);
                ("visualAnalysisSummary",
                 VStr ("Browser-based Neural Network identified: " ++ listed
                       ++ ".")) ])) w s1.
Proof.
  intros (Hload & predictions & Hdet & Hcls) Hne.
  unfold Part000.runLocalObjectAnalysis, array_map. monad.
  rewrite Hload. monad. rewrite Hdet. monad.
  destruct predictions as [|p ps];
    [inversion Hcls; subst; contradiction |].
  cbn [truthy negb orb Part000.length_is_zero].
  rewrite (classes_read _ _ _ _ Hcls).
  change (Part000.dedup_values [] (map VStr labels))
    with (Part000.dedup_values (map VStr []) (map VStr labels)).
  rewrite dedup_values_strings. fold (unique labels).
  rewrite join_strings.
  match goal with
  | |- context [Part000.match_dataset ?u ?v w ?s0] =>
      exists s0; monad;
      destruct (Part000.match_dataset u v w s0) as [[vars|e] s2]
  end; rewrite join_strings; reflexivity.
Qed.


Lemma no_dataset_detected labels :
  Forall (fun l => l <> "") labels ->
  detected (no_dataset labels) labels.
Proof.
  intros Hl. split; [reflexivity |]. eexists. split; [reflexivity |].
  induction Hl as [|l ls Hx _ IH]; constructor; [| exact IH].
  split; [reflexivity | exact Hx].
Qed.

Lemma present_get_total v :
  present v = true -> forall k, exists x, get v k = Ok x.
Proof.
  intros H k. destruct v; simpl in *; try discriminate; eauto.
  destruct (assoc k fields); eauto.
Qed.



(** X11. In part_000, when the detector reports a non-empty list of labels
    but the dataset cannot be used (the request is rejected, the response is
    not OK, its body does not parse, or it parses to null),
    [runLocalObjectAnalysis] still returns: the guess keeps the initial
    coordinates 48.8566, 2.3522 and 'Populated Area', and both its reasoning
    and its summary list the distinct labels in detection order. *)
Theorem unusable_dataset_leaves_the_defaults :
  forall node w s labels,
    detected w labels ->
    labels <> [] ->
    dataset_unavailable w = true \/ dataset_is w VNull ->
    exists guess,
      fst (Part000.runLocalObjectAnalysis node w s) = Ok guess
      /\ defaulted (unique labels) guess
      /\ get guess "visualAnalysisSummary"
         = Ok (VStr ("Browser-based Neural Network identified: "
                     ++ String.concat ", " (unique labels) ++ ".")).
Proof.
  intros node w s labels Hdet Hne Hdata.
  destruct (Part000_local_detected node w s labels Hdet Hne) as [s1 ->].
  unfold Part000.match_dataset, Part000.keys. monad.
  destruct Hdata as [Hun | (response & Hf & Hok & Hb)].
  - unfold dataset_unavailable in Hun.
    destruct (fetch w "./dataset.json" VUndef) as [response|e]; monad.
    + destruct (ok response); monad.
      * destruct (body response) as [dataset|e]; [discriminate Hun |].
        monad. eexists. repeat split.
      * eexists. repeat split.
    + eexists. repeat split.
  - rewrite Hf. monad. rewrite Hok, Hb. monad.
    eexists. repeat split.
Qed.

Lemma unusable_dataset_witness :
  exists guess,
    fst (Part000.runLocalObjectAnalysis "previewImg"
           (no_dataset ["temple"; "person"; "temple"]) (mkState blank []))
    = Ok guess
    /\ defaulted ["temple"; "person"] guess
    /\ get guess "visualAnalysisSummary"
       = Ok (VStr "Browser-based Neural Network identified: temple, person.").
Proof.
  apply (unusable_dataset_leaves_the_defaults "previewImg"
           (no_dataset ["temple"; "person"; "temple"]) (mkState blank [])
           ["temple"; "person"; "temple"]).
  - apply no_dataset_detected. repeat (constructor; [discriminate |]).
    constructor.
  - discriminate.
  - left. reflexivity.
Defined.

(** *** What a scan reads from the page *)

Section Reads.

Context {A : Type} (f : Page -> A).
















End Reads.






Lemma spread_keeps_fields parsed k x v0 :
  get parsed "lat" = Ok v0 -> truthy v0 = true ->
  forall k', k' <> k -> get (spread_with parsed k x) k' = get parsed k'.
Proof.
  intros H0 T0 k' Hk.
  destruct parsed; simpl in H0; try (injection H0 as <-; discriminate T0);
    try discriminate H0.
  unfold spread_with, get. cbn [own_fields].
  rewrite (assoc_set_field_other _ _ _ _ Hk). reflexivity.
Qed.


Lemma Part000_identify_run img file w s parsed lat lng :
  (forall image text,
     generateContent w "gemini-3-flash-preview" image text = Ok parsed) ->
  get parsed "lat" = Ok lat -> truthy lat = true ->
  get parsed "lng" = Ok lng -> truthy lng = true ->
  exists text,
    Part000.identifyLocation img file w s
    = (Ok (spread_with parsed "source" (VStr "Gemini-3-Flash AI")),
       mkState (page s)
         (trace s ++ [Generate "gemini-3-flash-preview" (split_comma_1 img)
                        text])).
Proof.
  intros H Hlat Tlat Hlng Tlng.
  destruct (Part000_remote_reply img file w s parsed H) as [text E].
  exists text.
  unfold Part000.identifyLocation. unfold bind at 1. rewrite E.
  unfold try_catch. rewrite (accept_truthy _ _ _ _ _ _ Hlat Tlat Hlng Tlng).
  reflexivity.
Qed.








(** *** The candidate terms of the local engine *)

Lemma includes_In xs x : includes xs x = true <-> In x xs.
Proof.
  unfold includes. rewrite existsb_exists. split.
  - intros [y [Hin E]]. apply String.eqb_eq in E. subst. exact Hin.
  - intros Hin. exists x. split; [exact Hin | apply String.eqb_refl].
Qed.

Lemma dedup_In seen xs x :
  In x (dedup seen xs) <-> In x xs /\ ~ In x seen.
Proof.
  revert seen. induction xs as [|y ys IH]; intros seen; cbn [dedup].
  - simpl. tauto.
  - destruct (includes seen y) eqn:E.
    + apply includes_In in E. rewrite IH. simpl. split.
      * intros [H1 H2]. tauto.
      * intros [[-> | H1] H2]; [contradiction | tauto].
    + assert (Hy : ~ In y seen).
      { intros Hin. apply includes_In in Hin. congruence. }
      simpl. rewrite IH. simpl. split.
      * intros [-> | [H1 H2]]; [tauto |]. split; [tauto |]. tauto.
      * intros [[-> | H1] H2]; [tauto |].
        destruct (string_dec y x) as [-> | Hne]; [tauto |]. right.
        split; [exact H1 |]. intros [Hx | Hx]; [contradiction | tauto].
Qed.

Lemma dedup_NoDup seen xs : NoDup (dedup seen xs).
Proof.
  revert seen. induction xs as [|y ys IH]; intros seen; cbn [dedup].
  - constructor.
  - destruct (includes seen y); [apply IH |].
    constructor; [| apply IH].
    rewrite dedup_In. simpl. tauto.
Qed.

(** X16. The candidate terms of the local engine of src/index.js have no
    duplicates, are exactly the classifier labels together with the OCR
    words, and begin with the distinct labels in classification order; every
    OCR word is longer than three characters and consists of the letters a
    to z only. *)
Theorem candidate_terms_are_distinct_and_filtered :
  forall objects text,
    let ocrWords := IndexJs.ocr_words (toLowerCase text) in
    let terms := IndexJs.unique_terms objects ocrWords in
    NoDup terms
    /\ (forall t, In t terms <-> In t objects \/ In t ocrWords)
    /\ (forall t, In t ocrWords ->
                  (3 < String.length t)%nat
                  /\ forall_chars is_lower_alpha t = true)
    /\ exists rest, terms = (unique objects ++ rest)%list.
Proof.
  intros objects text ocrWords terms. subst terms.
  split; [apply dedup_NoDup |]. split; [| split].
  - intros t. unfold IndexJs.unique_terms, unique. rewrite dedup_In, in_app_iff.
    simpl. tauto.
  - intros t Hin. subst ocrWords. unfold IndexJs.ocr_words in Hin.
    apply filter_In in Hin as [_ H].
    apply andb_prop in H as [Hlen Hw]. unfold lower_alpha_word in Hw.
    apply andb_prop in Hw as [_ Hw].
    split; [apply Nat.ltb_lt, Hlen | exact Hw].
  - eexists. unfold IndexJs.unique_terms, unique.
    rewrite dedup_app. reflexivity.
Qed.

(** X17. In src/index.js, when exactly one of the two recognizers started
    together fails (the classifier does not load, or the text recognition is
    rejected), [runLocalObjectAnalysis] throws that error: nothing is
    classified, the dataset is not requested, and the status line stays at
    'Running Local Vision & OCR Analysis...'. *)
Theorem recognizer_failure_stops_the_local_engine :
  forall node img w s e,
    (mobilenet_load w = Throw e
     /\ returned (Tesseract_recognize w img "eng+hin+fra") = true)
    \/ (mobilenet_load w = Ok tt
        /\ Tesseract_recognize w img "eng+hin+fra" = Throw e) ->
    let out := IndexJs.runLocalObjectAnalysis node img w s in
    fst out = Throw e
    /\ existsb is_classify (trace (snd out)) = existsb is_classify (trace s)
    /\ existsb is_fetch (trace (snd out)) = existsb is_fetch (trace s)
    /\ text (page (snd out)) "statusMessage"
       = "Running Local Vision & OCR Analysis...".
Proof.
  intros node img w s e H out. subst out.
  unfold IndexJs.runLocalObjectAnalysis. monad.
  destruct H as [[Hl _] | [Hl Hr]]; rewrite Hl; monad; rewrite ?Hr; monad;
    rewrite !existsb_app; cbn; rewrite !orb_false_r; repeat split.
Qed.

Lemma recognizer_failure_witness :
  fst (IndexJs.runLocalObjectAnalysis "previewImg" img classifier_down
         (mkState blank []))
  = Throw (Rejected "mobilenet.load").
Proof.
  refine (proj1 (recognizer_failure_stops_the_local_engine "previewImg" img
                   classifier_down (mkState blank [])
                   (Rejected "mobilenet.load") _)).
  left. split; reflexivity.
Defined.

Lemma search_finds_the_first_hit dataset terms w s :
  present dataset = true ->
  exists r,
    IndexJs.find_term dataset terms w s = (Ok r, s)
    /\ Part000.find_object dataset (map VStr terms) w s
       = (Ok (option_map VStr r), s)
    /\ match r with
       | Some t =>
           hits dataset t = true
           /\ exists before after,
                terms = (before ++ t :: after)%list
                /\ forallb (fun u => negb (hits dataset u)) before = true
       | None => forallb (fun u => negb (hits dataset u)) terms = true
       end.
Proof.
  intros Hp. induction terms as [|t ts (r & E1 & E2 & Hr)].
  - exists None. repeat split.
  - destruct (present_get_total dataset Hp t) as [entry He].
    cbn [map Part000.find_object IndexJs.find_term]. monad.
    cbn [to_string]. rewrite He.
    destruct (truthy entry) eqn:Te.
    + exists (Some t). repeat split.
      * unfold hits. rewrite He. exact Te.
      * exists [], ts. split; reflexivity.
    + assert (Hmiss : negb (hits dataset t) = true)
        by (unfold hits; rewrite He, Te; reflexivity).
      exists r. rewrite E1, E2. repeat split.
      destruct r as [u|].
      * destruct Hr as (Hu & before & after & -> & Hb).
        split; [exact Hu |]. exists (t :: before), after.
        split; [reflexivity |]. cbn [forallb]. rewrite Hmiss. exact Hb.
      * cbn [forallb]. rewrite Hmiss. exact Hr.
Qed.

(** X18. The dataset search of part_000 and the one of src/index.js return
    the same thing on every dataset and every list of terms, and neither
    changes the page or the trace.  On a dataset other than null both
    return the first term whose entry [dataset[term]] is truthy: every term
    before it has a falsy entry; and both return nothing when every entry
    is falsy.  On a null dataset both throw the TypeError of reading the
    first term, and return nothing when there is no term to read. *)
Theorem both_variants_search_the_dataset_alike :
  forall dataset terms w s,
    let found := IndexJs.find_term dataset terms w s in
    let found_old := Part000.find_object dataset (map VStr terms) w s in
    snd found = s
    /\ snd found_old = s
    /\ if present dataset then
         exists r,
           fst found = Ok r
           /\ fst found_old = Ok (option_map VStr r)
           /\ match r with
              | Some t =>
                  hits dataset t = true
                  /\ exists before after,
                       terms = (before ++ t :: after)%list
                       /\ forallb (fun u => negb (hits dataset u)) before
                          = true
              | None =>
                  forallb (fun u => negb (hits dataset u)) terms = true
              end
       else
         match terms with
         | [] => fst found = Ok None /\ fst found_old = Ok None
         | t :: _ =>
             fst found = Throw (TypeError t)
             /\ fst found_old = Throw (TypeError t)
         end.
Proof.
  intros dataset terms w s found found_old. subst found found_old.
  destruct (present dataset) eqn:Hp.
  - destruct (search_finds_the_first_hit dataset terms w s Hp)
      as (r & E1 & E2 & Hr).
    rewrite E1, E2. repeat split. exists r. repeat split. exact Hr.
  - destruct dataset; try discriminate Hp;
      destruct terms as [|t ts];
      cbn [map Part000.find_object IndexJs.find_term]; monad;
      repeat split.
Qed.




(** What the guard of [renderResults] does with a guess it does not show. *)
Lemma render_hidden T data c w s :
  get data "confidence" = Ok (VNum c) ->
  PrimFloat.ltb c T = true ->
  let out := renderResults_at T data w s in
  let shown := page (snd out) in
  fst out = Ok tt
  /\ text shown "statusMessage" = "Very Low confidence"
  /\ color shown "statusMessage" = "red"
  /\ classes shown "statusMessage" = classes (page s) "statusMessage"
  /\ classes shown "resultsContent" = classes (page s) "resultsContent"
  /\ includes (classes shown "previewImg") "blur" = false
  /\ text shown "engineBadge" = text (page s) "engineBadge"
  /\ markers shown = markers (page s)
  /\ view shown = view (page s)
  /\ trace (snd out) = trace s.
Proof.
  intros Hc Hlt. unfold renderResults_at, less_than, classList_remove.
  monad. rewrite Hc. cbn [to_number]. rewrite Hlt. monad.
  cbn [text color classes markers view with_markers with_text with_color
       with_classes with_view override String.eqb Ascii.eqb Bool.eqb
       node_text to_string].
  repeat split. apply includes_after_remove.
Qed.

(** X20. In part_000, when the first model answers with truthy coordinates
    but a confidence below 0.3, the guess is accepted and the handler
    returns normally without showing it: the status line stays visible and
    reads 'Very Low confidence' in red, the results stay hidden, the preview
    is no longer blurred, and the badge, the markers and the view of the map
    are those of the page before the scan; no local model is started. *)
Theorem unsure_reply_keeps_the_old_map :
  forall img file w p parsed c lat lng,
    (forall image text,
       generateContent w "gemini-3-flash-preview" image text = Ok parsed) ->
    get parsed "lat" = Ok lat -> truthy lat = true ->
    get parsed "lng" = Ok lng -> truthy lng = true ->
    get parsed "confidence" = Ok (VNum c) ->
    PrimFloat.ltb c 0.3 = true ->
    let out := run (Part000.handleFileSelect img file) w p in
    let shown := page (snd out) in
    fst out = Ok tt
    /\ text shown "statusMessage" = "Very Low confidence"
    /\ color shown "statusMessage" = "red"
    /\ includes (classes shown "statusMessage") "hidden" = false
    /\ includes (classes shown "resultsContent") "hidden" = true
    /\ includes (classes shown "previewImg") "blur" = false
    /\ text shown "engineBadge" = text p "engineBadge"
    /\ markers shown = markers p
    /\ view shown = view p
    /\ ran_local (trace (snd out)) = false.
Proof.
  intros img file w p parsed c lat lng H Hx Tx Hy Ty Hc Hlt out shown.
  subst shown out.
  pose proof (spread_keeps_fields parsed "source" (VStr "Gemini-3-Flash AI")
                lat Hx Tx "confidence") as Same.
  rewrite Hc in Same.
  unfold Part000.handleFileSelect, Part000.renderResults, run,
    Common.handleFileSelect, classList_add, classList_remove.
  monad.
  match goal with
  | |- context [Part000.identifyLocation img file w (mkState ?P0 ?t)] =>
      assert (Hbadge : text P0 "engineBadge" = text p "engineBadge")
        by reflexivity;
      assert (Hmark : markers P0 = markers p) by reflexivity;
      assert (Hview : view P0 = view p) by reflexivity;
      assert (Hstatus : includes (classes P0 "statusMessage") "hidden" = false)
        by (cbn [classes with_markers with_text with_color with_classes
                 with_view override String.eqb Ascii.eqb Bool.eqb];
            apply includes_after_remove);
      assert (Hcont : includes (classes P0 "resultsContent") "hidden" = true)
        by (cbn [classes with_markers with_text with_color with_classes
                 with_view override String.eqb Ascii.eqb Bool.eqb];
            apply includes_after_add);
      generalize dependent P0; intros p0 Hbadge Hmark Hview Hstatus Hcont;
      destruct (Part000_identify_run img file w (mkState p0 t) parsed lat lng
                  H Hx Tx Hy Ty) as [prompt E];
      rewrite E
  end.
  match goal with
  | |- context [renderResults_at 0.3 ?d w ?s1] =>
      destruct (render_hidden 0.3 d c w s1 (Same ltac:(discriminate)) Hlt)
        as (R1 & R2 & R3 & R4 & R5 & R6 & R7 & R8 & R9 & R10);
      destruct (renderResults_at 0.3 d w s1) as [[u|e] s2]
  end; cbn [fst snd page trace] in *; [| discriminate R1].
  rewrite R2, R3, R4, R5, R6, R7, R8, R9, R10, Hbadge, Hmark, Hview.
  repeat split; assumption.
Qed.

Lemma unsure_reply_witness :
  markers (page (snd (run (Part000.handleFileSelect img VNull)
                        (online reply_unsure [] "") visited)))
  = markers visited
  /\ text (page (snd (run (Part000.handleFileSelect img VNull)
                        (online reply_unsure [] "") visited)))
       "statusMessage"
     = "Very Low confidence".
Proof.
  pose proof (unsure_reply_keeps_the_old_map img VNull
                (online reply_unsure [] "") visited reply_unsure 0.2
                (VNum 21.0285) (VNum 105.8542)
                (fun _ _ => eq_refl) eq_refl eq_refl eq_refl eq_refl
                eq_refl eq_refl) as H.
  split.
  - exact (proj1 (proj2 (proj2 (proj2 (proj2 (proj2 (proj2 (proj2 H)))))))).
  - exact (proj1 (proj2 H)).
Defined.

(** *** The relay *)

Lemma merge_keeps_the_lens_fields svc first lensJson options answer :
  Relay.sent (Relay.merge svc first lensJson options) = Some answer ->
  (forall k, k <> "ai_overview" -> get answer k = get (VObj lensJson) k)
  /\ exists aiResult,
       Relay.getJson svc
         (Relay.overview_call svc (Relay.page_token lensJson) options)
       = Some aiResult
       /\ get answer "ai_overview" = Ok (Relay.field aiResult "ai_overview").
Proof.
  unfold Relay.merge.
  destruct (Relay.getJson svc _) as [aiResult|] eqn:E; [| discriminate].
  cbn [Relay.sent]. intros H. injection H as <-. split.
  - intros k Hk. unfold spread_with, get. cbn [own_fields].
    rewrite (assoc_set_field_other _ _ _ _ Hk). reflexivity.
  - exists aiResult. split; [reflexivity | apply get_spread_with].
Qed.

(** X21. Whenever the /search.json handler of src/api/index.js answers, the
    Lens request was answered and the response agrees with the Lens answer
    on every property other than ai_overview. If the Lens answer carries a
    truthy ai_overview.page_token, two requests were made and ai_overview is
    the one of the second answer; otherwise one request was made and the
    response is the Lens answer itself. *)
Theorem relay_answer_keeps_the_lens_fields :
  forall svc q answer,
    Relay.sent (Relay.search svc q) = Some answer ->
    exists lensJson,
      Relay.getJson svc
        (Relay.lens_call "where's this location" svc q
           [("no_cache", VBool true)])
      = Some lensJson
      /\ (forall k, k <> "ai_overview" ->
                    get answer k = get (VObj lensJson) k)
      /\ (if truthy (Relay.page_token lensJson)
          then List.length (Relay.calls (Relay.search svc q)) = 2%nat
               /\ exists aiResult,
                    Relay.getJson svc
                      (Relay.overview_call svc (Relay.page_token lensJson)
                         [("no_cache", VBool true)])
                    = Some aiResult
                    /\ get answer "ai_overview"
                       = Ok (Relay.field aiResult "ai_overview")
          else answer = VObj lensJson
               /\ List.length (Relay.calls (Relay.search svc q)) = 1%nat).
Proof.
  intros svc q answer. unfold Relay.search.
  destruct (Relay.getJson svc (Relay.lens_call _ svc q _))
    as [lensJson|] eqn:E; [| discriminate].
  intros H. exists lensJson. split; [reflexivity |].
  destruct (truthy (Relay.page_token lensJson)).
  - destruct (merge_keeps_the_lens_fields _ _ _ _ _ H) as [Hk Hov].
    split; [exact Hk |]. split; [| exact Hov].
    unfold Relay.merge in *.
    destruct (Relay.getJson svc (Relay.overview_call _ _ _)); reflexivity.
  - cbn [Relay.sent] in H. injection H as <-.
    split; [reflexivity |]. split; reflexivity.
Qed.

Lemma relay_answer_witness :
  get (VObj lens_answer) "visual_matches"
  = Ok (VArr [VObj [("title", VStr "Old Quarter")]])
  /\ exists answer,
       Relay.sent (Relay.search (serp lens_answer) asked) = Some answer
       /\ get answer "visual_matches" = get (VObj lens_answer) "visual_matches".
Proof.
  split; [reflexivity |]. eexists. split; [reflexivity |].
  destruct (relay_answer_keeps_the_lens_fields (serp lens_answer) asked _
              eq_refl) as (lensJson & E & Hk & _).
  injection E as <-. apply Hk. discriminate.
Defined.

(** X22. The /search.json handler of part_001 makes the overview request
    whenever the Lens request is answered, with or without a page token: it
    makes exactly two requests, the second carrying ai_overview?.page_token
    of the Lens answer (possibly undefined); if the second request is
    answered the response is the Lens answer with ai_overview replaced by
    the one of the second answer, and if it is not, no response is sent. *)
Theorem earlier_relay_always_asks_for_the_overview :
  forall svc q lensJson,
    Relay.getJson svc
      (Relay.lens_call "what is this place" svc q
         [("no_cache", VBool true); ("timeout", VNum 60000)])
    = Some lensJson ->
    let out := Relay.search_earlier svc q in
    let second :=
      Relay.overview_call svc (Relay.page_token lensJson)
        [("no_cache", VBool true); ("timeout", VNum 20000)] in
    List.nth_error (Relay.calls out) 1 = Some second
    /\ List.length (Relay.calls out) = 2%nat
    /\ assoc "page_token" second = Some (Relay.page_token lensJson)
    /\ match Relay.getJson svc second with
       | None => Relay.sent out = None
       | Some aiResult =>
           exists answer,
             Relay.sent out = Some answer
             /\ get answer "ai_overview"
                = Ok (Relay.field aiResult "ai_overview")
             /\ forall k, k <> "ai_overview" ->
                          get answer k = get (VObj lensJson) k
       end.
Proof.
  intros svc q lensJson E out second. subst out second.
  unfold Relay.search_earlier. rewrite E. unfold Relay.merge.
  destruct (Relay.getJson svc (Relay.overview_call _ _ _)) as [aiResult|];
    cbn [Relay.calls Relay.sent nth_error List.length];
    repeat (split; [reflexivity |]); [| reflexivity].
  eexists. split; [reflexivity |]. split; [apply get_spread_with |].
  intros k Hk. unfold spread_with, get. cbn [own_fields].
  rewrite (assoc_set_field_other _ _ _ _ Hk). reflexivity.
Qed.

Lemma earlier_relay_witness :
  List.length
    (Relay.calls (Relay.search_earlier (serp [("visual_matches", VArr [])])
                    asked)) = 2%nat
  /\ List.length
       (Relay.calls (Relay.search (serp [("visual_matches", VArr [])])
                       asked)) = 1%nat.
Proof.
  split; [| reflexivity].
  exact (proj1 (proj2 (earlier_relay_always_asks_for_the_overview
                         (serp [("visual_matches", VArr [])]) asked
                         [("visual_matches", VArr [])] eq_refl))).
Defined.
